(** * trading_decision_app.py: indicator engine, signal rules and price targets

    A shallow embedding of [TradingAnalyzer] (calculate_technical_indicators,
    generate_signals, calculate_price_targets) together with the pieces of
    numpy, pandas and ta that these three methods call.

    Numbers.  Every price and indicator in the program is a numpy float64.
    They are modelled in exact arithmetic: a value is a rational number or
    one of the IEEE special values nan, +inf, -inf, and the special values
    follow the IEEE rules numpy applies (x/0 is an infinity or nan, every
    comparison with nan is false, ...).  Rounding is not modelled, decimal
    literals such as 0.98 denote the rational 98/100, and -0.0 is identified
    with 0.0. *)

From Stdlib Require Import String Ascii Bool Arith ZArith QArith Qabs Qcanon Lia List.
From Stdlib Require Import Lqa Qfield DecimalString.
Import ListNotations.

Local Open Scope nat_scope.
Local Open Scope string_scope.
Local Open Scope list_scope.

(** ** numpy float64, in exact arithmetic *)

Inductive float : Type :=
| Fin (q : Qc)
| PInf
| NInf
| NaN.

Module Np.

Definition Qcltb (a b : Qc) : bool :=
  match (a ?= b)%Qc with Lt => true | _ => false end.

Definition Qceqb (a b : Qc) : bool :=
  match (a ?= b)%Qc with Eq => true | _ => false end.

(** A decimal literal [n/d] and an integer literal. *)
Definition lit (n : Z) (d : positive) : float := Fin (Q2Qc (n # d)).
Definition of_Z (n : Z) : float := Fin (Q2Qc (inject_Z n)).
Definition of_nat (n : nat) : float := of_Z (Z.of_nat n).

Definition isnan (x : float) : bool :=
  match x with NaN => true | _ => false end.

Definition isfinite (x : float) : bool :=
  match x with Fin _ => true | _ => false end.

Definition neg (x : float) : float :=
  match x with
  | Fin a => Fin (- a)%Qc
  | PInf => NInf
  | NInf => PInf
  | NaN => NaN
  end.

Definition add (x y : float) : float :=
  match x, y with
  | NaN, _ | _, NaN => NaN
  | Fin a, Fin b => Fin (a + b)%Qc
  | PInf, NInf | NInf, PInf => NaN
  | PInf, _ | _, PInf => PInf
  | NInf, _ | _, NInf => NInf
  end.

Definition sub (x y : float) : float := add x (neg y).

(** The infinity of the sign of [s * a], nan when [a] is zero. *)
Definition inf_times (positive_inf : bool) (a : Qc) : float :=
  if Qceqb a 0 then NaN
  else if Bool.eqb positive_inf (Qcltb 0 a) then PInf else NInf.

Definition mul (x y : float) : float :=
  match x, y with
  | NaN, _ | _, NaN => NaN
  | Fin a, Fin b => Fin (a * b)%Qc
  | PInf, Fin a | Fin a, PInf => inf_times true a
  | NInf, Fin a | Fin a, NInf => inf_times false a
  | PInf, PInf | NInf, NInf => PInf
  | PInf, NInf | NInf, PInf => NInf
  end.

(** numpy does not raise on a zero divisor: the quotient is an infinity, or
    nan for 0/0 (the module silences the warning with
    [warnings.filterwarnings('ignore')]). *)
Definition div (x y : float) : float :=
  match x, y with
  | NaN, _ | _, NaN => NaN
  | Fin a, Fin b =>
      if Qceqb b 0 then
        if Qceqb a 0 then NaN else if Qcltb 0 a then PInf else NInf
      else Fin (a / b)%Qc
  | Fin _, PInf | Fin _, NInf => Fin 0%Qc
  | PInf, Fin b => if Qcltb b 0 then NInf else PInf
  | NInf, Fin b => if Qcltb b 0 then PInf else NInf
  | PInf, PInf | PInf, NInf | NInf, PInf | NInf, NInf => NaN
  end.

Definition ltb (x y : float) : bool :=
  match x, y with
  | NaN, _ | _, NaN => false
  | Fin a, Fin b => Qcltb a b
  | NInf, Fin _ | NInf, PInf | Fin _, PInf => true
  | _, _ => false
  end.

Definition gtb (x y : float) : bool := ltb y x.

Definition eqb (x y : float) : bool :=
  match x, y with
  | Fin a, Fin b => Qceqb a b
  | PInf, PInf | NInf, NInf => true
  | _, _ => false
  end.

(** Python's truth value of a float: false exactly for zero (nan is true). *)
Definition truthy (x : float) : bool := negb (eqb x (of_Z 0)).

End Np.

Declare Scope np_scope.
Delimit Scope np_scope with np.
Infix "+" := Np.add : np_scope.
Infix "-" := Np.sub : np_scope.
Infix "*" := Np.mul : np_scope.
Infix "/" := Np.div : np_scope.
Infix "<?" := Np.ltb : np_scope.
Infix ">?" := Np.gtb : np_scope.
Notation "- x" := (Np.neg x) : np_scope.

(** ** Python builtins used by the analyzer *)

Inductive exn : Type := IndexError | TypeError.

(** The outcome of a call: a returned value or a raised exception. *)
Inductive result (A : Type) : Type :=
| Return (a : A)
| Raise (e : exn).
Arguments Return {A} a.
Arguments Raise {A} e.

Definition bind {A B} (m : result A) (k : A -> result B) : result B :=
  match m with
  | Return a => k a
  | Raise e => Raise e
  end.

Module Py.

(** [max(a, b)] keeps its first argument unless the second compares greater;
    [min(a, b)] keeps it unless the second compares smaller. *)
Definition max (a b : float) : float := if (b >? a)%np then b else a.
Definition min (a b : float) : float := if (b <? a)%np then b else a.

(** Decimal digits of a natural number, as [str(n)]. *)
Definition str_of_N (n : N) : string := NilZero.string_of_uint (N.to_uint n).

(** Nearest integer to a non-negative rational, ties to the even one. *)
Definition round_half_even (q : Q) : Z :=
  let n := Qnum q in
  let d := Zpos (Qden q) in
  let fl := (n / d)%Z in
  let twice_rem := (2 * (n mod d))%Z in
  if (twice_rem <? d)%Z then fl
  else if (d <? twice_rem)%Z then (fl + 1)%Z
  else if Z.even fl then fl else (fl + 1)%Z.

(** The format specification [:.1f]. *)
Definition format_1f (x : float) : string :=
  match x with
  | NaN => "nan"
  | PInf => "inf"
  | NInf => "-inf"
  | Fin q =>
      let negative := Np.Qcltb q 0 in
      let tenths := round_half_even (Qabs (this q) * inject_Z 10) in
      ((if negative then "-" else "") ++
       str_of_N (Z.to_N (tenths / 10)) ++ "." ++ str_of_N (Z.to_N (tenths mod 10)))%string
  end.

End Py.

(** ** pandas Series operations

    A column of floats is a list, oldest bar first.  Only the operations
    the analyzer (or ta on its behalf) calls are embedded, with the keyword
    arguments they are called with. *)

Module Pd.

Definition Series : Type := list float.

(** Element-wise arithmetic of two aligned columns, and with a scalar. *)
Fixpoint zip_with (f : float -> float -> float) (a b : Series) : Series :=
  match a, b with
  | x :: a', y :: b' => f x y :: zip_with f a' b'
  | _, _ => []
  end.

Definition sub (a b : Series) : Series := zip_with Np.sub a b.
Definition add (a b : Series) : Series := zip_with Np.add a b.
Definition div (a b : Series) : Series := zip_with Np.div a b.
Definition scale (a : Series) (k : float) : Series := map (fun x => (x * k)%np) a.
Definition neg (a : Series) : Series := map Np.neg a.

(** [s.iloc[-1]] for a non-empty column. *)
Definition iloc_last (s : Series) : float := last s NaN.

(** [s.diff()]: nan at the first bar, then the change from the bar before. *)
Fixpoint diff_from (prev : float) (s : Series) : Series :=
  match s with
  | [] => []
  | x :: s' => (x - prev)%np :: diff_from x s'
  end.

Definition diff (s : Series) : Series :=
  match s with
  | [] => []
  | x :: s' => NaN :: diff_from x s'
  end.

(** [s.where(cond, other)] with [cond] computed from [s] itself. *)
Definition where_ (s : Series) (cond : float -> bool) (other : float) : Series :=
  map (fun x => if cond x then x else other) s.

(** The [w] values ending at bar [i], when that many bars exist. *)
Definition window (w i : nat) (s : Series) : option (list float) :=
  if (w <=? i + 1)%nat then Some (firstn w (skipn (i + 1 - w) s)) else None.

(** [s.rolling(window=w).agg()]: [min_periods] defaults to [w], so the value
    is nan until [w] bars exist and whenever the window holds a nan. *)
Definition rolling (w : nat) (agg : list float -> float) (s : Series) : Series :=
  map (fun i =>
         match window w i s with
         | Some xs => if existsb Np.isnan xs then NaN else agg xs
         | None => NaN
         end)
      (seq 0 (length s)).

Definition sum (xs : list float) : float := fold_left Np.add xs (Np.of_Z 0).

Definition mean (xs : list float) : float := (sum xs / Np.of_nat (length xs))%np.

Definition minimum (xs : list float) : float :=
  match xs with
  | [] => NaN
  | x :: xs' => fold_left Py.min xs' x
  end.

Definition maximum (xs : list float) : float :=
  match xs with
  | [] => NaN
  | x :: xs' => fold_left Py.max xs' x
  end.

(** Standard deviation with [ddof] delta degrees of freedom; the square
    root is the caller's. *)
Definition std (sqrt : float -> float) (ddof : nat) (xs : list float) : float :=
  let m := mean xs in
  let sq := map (fun x => ((x - m) * (x - m))%np) xs in
  sqrt (sum sq / Np.of_nat (length xs - ddof))%np.

(** [s.ewm(alpha=..., min_periods=minp, adjust=...).mean()] with the default
    [ignore_na=False], after pandas' window aggregation [ewm]: one pass that
    carries the running average, the weight of the past and the number of
    observations seen. *)
Record ewm_state : Type := {
  weighted : float;
  old_wt : float;
  nobs : nat
}.

Definition ewm_out (minp : nat) (st : ewm_state) : float :=
  if (minp <=? nobs st)%nat then weighted st else NaN.

Definition ewm_step (alpha : float) (adjust : bool) (st : ewm_state) (cur : float)
  : ewm_state :=
  let old_wt_factor := (Np.of_Z 1 - alpha)%np in
  let new_wt := if adjust then Np.of_Z 1 else alpha in
  let is_observation := negb (Np.isnan cur) in
  let nobs' := if is_observation then S (nobs st) else nobs st in
  if negb (Np.isnan (weighted st)) then
    let old_wt1 := (old_wt st * old_wt_factor)%np in
    if is_observation then
      {| weighted :=
           if negb (Np.eqb (weighted st) cur)
           then ((old_wt1 * weighted st + new_wt * cur) / (old_wt1 + new_wt))%np
           else weighted st;
         old_wt := if adjust then (old_wt1 + new_wt)%np else Np.of_Z 1;
         nobs := nobs' |}
    else {| weighted := weighted st; old_wt := old_wt1; nobs := nobs' |}
  else if is_observation then
    {| weighted := cur; old_wt := old_wt st; nobs := nobs' |}
  else {| weighted := weighted st; old_wt := old_wt st; nobs := nobs' |}.

Fixpoint ewm_loop (alpha : float) (adjust : bool) (minp : nat)
    (st : ewm_state) (vals : Series) : Series :=
  match vals with
  | [] => []
  | cur :: vals' =>
      let st' := ewm_step alpha adjust st cur in
      ewm_out minp st' :: ewm_loop alpha adjust minp st' vals'
  end.

Definition ewm_mean (alpha : float) (adjust : bool) (minp : nat) (vals : Series)
  : Series :=
  match vals with
  | [] => []
  | v0 :: vals' =>
      let st0 := {| weighted := v0;
                    old_wt := Np.of_Z 1;
                    nobs := if Np.isnan v0 then 0 else 1 |} in
      ewm_out minp st0 :: ewm_loop alpha adjust minp st0 vals'
  end.

(** [span] is turned into the smoothing factor 2 / (span + 1). *)
Definition alpha_of_span (span : nat) : float :=
  (Np.of_Z 2 / Np.of_nat (span + 1))%np.

End Pd.

(** ** The ta package, as far as the analyzer calls it

    ta is a third-party dependency; its functions are embedded from the
    package's own modules (utils [_sma], [_ema]; trend [MACD]; momentum
    [RSIIndicator]; volatility [BollingerBands]) with their defaults
    ([fillna=False], MACD windows 26/12/9, Bollinger window 20 and 2
    deviations). *)

Module Ta.

(** utils._sma, utils._ema: [min_periods] is the window itself. *)
Definition _sma (series : Pd.Series) (periods : nat) : Pd.Series :=
  Pd.rolling periods Pd.mean series.

Definition _ema (series : Pd.Series) (periods : nat) : Pd.Series :=
  Pd.ewm_mean (Pd.alpha_of_span periods) false periods series.

Definition sma_indicator (close : Pd.Series) (window : nat) : Pd.Series :=
  _sma close window.

Definition ema_indicator (close : Pd.Series) (window : nat) : Pd.Series :=
  _ema close window.

(** trend.MACD._run *)
Definition macd (close : Pd.Series) : Pd.Series :=
  Pd.sub (_ema close 12) (_ema close 26).

Definition macd_signal (close : Pd.Series) : Pd.Series :=
  _ema (macd close) 9.

Definition macd_diff (close : Pd.Series) : Pd.Series :=
  Pd.sub (macd close) (macd_signal close).

(** momentum.RSIIndicator._run: Wilder smoothing of the gains and losses,
    and 100 wherever the smoothed loss is zero. *)
Definition emaup (close : Pd.Series) (window : nat) : Pd.Series :=
  let diff := Pd.diff close in
  let up_direction := Pd.where_ diff (fun d => (d >? Np.of_Z 0)%np) (Np.of_Z 0) in
  Pd.ewm_mean (Np.of_Z 1 / Np.of_nat window)%np false window up_direction.

Definition emadn (close : Pd.Series) (window : nat) : Pd.Series :=
  let diff := Pd.diff close in
  let down_direction :=
    Pd.neg (Pd.where_ diff (fun d => (d <? Np.of_Z 0)%np) (Np.of_Z 0)) in
  Pd.ewm_mean (Np.of_Z 1 / Np.of_nat window)%np false window down_direction.

Definition rsi (close : Pd.Series) (window : nat) : Pd.Series :=
  let relative_strength := Pd.div (emaup close window) (emadn close window) in
  Pd.zip_with
    (fun dn rs =>
       if Np.eqb dn (Np.of_Z 0) then Np.of_Z 100
       else (Np.of_Z 100 - Np.of_Z 100 / (Np.of_Z 1 + rs))%np)
    (emadn close window) relative_strength.

(** volatility.BollingerBands: population deviation ([ddof=0]). *)
Definition bollinger_mavg (close : Pd.Series) : Pd.Series :=
  Pd.rolling 20 Pd.mean close.

Definition bollinger_mstd (sqrt : float -> float) (close : Pd.Series) : Pd.Series :=
  Pd.rolling 20 (Pd.std sqrt 0) close.

Definition bollinger_hband (sqrt : float -> float) (close : Pd.Series) : Pd.Series :=
  Pd.add (bollinger_mavg close) (Pd.scale (bollinger_mstd sqrt close) (Np.of_Z 2)).

Definition bollinger_lband (sqrt : float -> float) (close : Pd.Series) : Pd.Series :=
  Pd.sub (bollinger_mavg close) (Pd.scale (bollinger_mstd sqrt close) (Np.of_Z 2)).

End Ta.

(** ** The data frame

    [ticker.history] yields one bar per trading day; the analyzer adds one
    column per indicator.  [Row] is what [df.iloc[-1]] returns. *)

Record Bar : Type := {
  Open : float;
  High : float;
  Low : float;
  Close : float;
  Volume : float
}.

Module DataFrame.

Record t : Type := {
  bars : list Bar;
  SMA_20 : Pd.Series;
  SMA_50 : Pd.Series;
  EMA_12 : Pd.Series;
  EMA_26 : Pd.Series;
  RSI : Pd.Series;
  MACD : Pd.Series;
  MACD_signal : Pd.Series;
  BB_upper : Pd.Series;
  BB_lower : Pd.Series;
  BB_middle : Pd.Series;
  Support : Pd.Series;
  Resistance : Pd.Series
}.

End DataFrame.

Module Row.

Record t : Type := {
  bar : Bar;
  SMA_20 : float;
  SMA_50 : float;
  EMA_12 : float;
  EMA_26 : float;
  RSI : float;
  MACD : float;
  MACD_signal : float;
  BB_upper : float;
  BB_lower : float;
  BB_middle : float;
  Support : float;
  Resistance : float
}.

End Row.

(** [df.iloc[-1]]: the last row, IndexError on a frame without rows. *)
Definition iloc_last (df : DataFrame.t) : result Row.t :=
  match rev (DataFrame.bars df) with
  | [] => Raise IndexError
  | b :: _ =>
      Return {| Row.bar := b;
                Row.SMA_20 := Pd.iloc_last (DataFrame.SMA_20 df);
                Row.SMA_50 := Pd.iloc_last (DataFrame.SMA_50 df);
                Row.EMA_12 := Pd.iloc_last (DataFrame.EMA_12 df);
                Row.EMA_26 := Pd.iloc_last (DataFrame.EMA_26 df);
                Row.RSI := Pd.iloc_last (DataFrame.RSI df);
                Row.MACD := Pd.iloc_last (DataFrame.MACD df);
                Row.MACD_signal := Pd.iloc_last (DataFrame.MACD_signal df);
                Row.BB_upper := Pd.iloc_last (DataFrame.BB_upper df);
                Row.BB_lower := Pd.iloc_last (DataFrame.BB_lower df);
                Row.BB_middle := Pd.iloc_last (DataFrame.BB_middle df);
                Row.Support := Pd.iloc_last (DataFrame.Support df);
                Row.Resistance := Pd.iloc_last (DataFrame.Resistance df) |}
  end.

(** ** TradingAnalyzer *)

Record TradingAnalyzer : Type := {
  symbol : string;
  data : option (list Bar);
  current_price : option float
}.

(** A signal is the tuple (indicator, verdict, explanation); a price plan is
    the dict the calculator returns, in insertion order. *)
Definition Signal : Type := (string * string * string)%type.
Definition verdict (s : Signal) : string := snd (fst s).
Definition Plan : Type := list (string * float).

Fixpoint get (key : string) (plan : Plan) : option float :=
  match plan with
  | [] => None
  | (k, v) :: plan' => if String.eqb k key then Some v else get key plan'
  end.

(** The lines of the "Simple RSI calculation": the average gain and the
    average loss over 14 bars, and the index computed from their ratio. *)
Definition avg_gain (delta : Pd.Series) : Pd.Series :=
  Pd.rolling 14 Pd.mean
    (Pd.where_ delta (fun d => (d >? Np.of_Z 0)%np) (Np.of_Z 0)).

Definition avg_loss (delta : Pd.Series) : Pd.Series :=
  Pd.rolling 14 Pd.mean
    (Pd.neg (Pd.where_ delta (fun d => (d <? Np.of_Z 0)%np) (Np.of_Z 0))).

Definition rsi_of_rs (rs : Pd.Series) : Pd.Series :=
  map (fun r => (Np.of_Z 100 - Np.of_Z 100 / (Np.of_Z 1 + r))%np) rs.

Section Analyzer.

(** [np.sqrt] behind [rolling(...).std()]: irrational in general, so it
    stays a parameter of the embedding. *)
Variable sqrt : float -> float.

(** The module-level flag set by [import ta]. *)
Variable TA_AVAILABLE : bool.

(** The calls inside the [try] block raise nothing on a frame of float
    columns, so its [except] branch (which returns None) is reached in no
    run of the embedding. *)
Definition calculate_technical_indicators (self : TradingAnalyzer)
  : option DataFrame.t :=
  match data self with
  | None => None
  | Some df =>
      let close := map Close df in
      let Support := Pd.rolling 20 Pd.minimum (map Low df) in
      let Resistance := Pd.rolling 20 Pd.maximum (map High df) in
      if TA_AVAILABLE then
        Some {| DataFrame.bars := df;
                DataFrame.SMA_20 := Ta.sma_indicator close 20;
                DataFrame.SMA_50 := Ta.sma_indicator close 50;
                DataFrame.EMA_12 := Ta.ema_indicator close 12;
                DataFrame.EMA_26 := Ta.ema_indicator close 26;
                DataFrame.RSI := Ta.rsi close 14;
                DataFrame.MACD := Ta.macd_diff close;
                DataFrame.MACD_signal := Ta.macd_signal close;
                DataFrame.BB_upper := Ta.bollinger_hband sqrt close;
                DataFrame.BB_lower := Ta.bollinger_lband sqrt close;
                DataFrame.BB_middle := Ta.bollinger_mavg close;
                DataFrame.Support := Support;
                DataFrame.Resistance := Resistance |}
      else
        let SMA_20 := Pd.rolling 20 Pd.mean close in
        let SMA_50 := Pd.rolling 50 Pd.mean close in
        let EMA_12 := Pd.ewm_mean (Pd.alpha_of_span 12) true 0 close in
        let EMA_26 := Pd.ewm_mean (Pd.alpha_of_span 26) true 0 close in
        let delta := Pd.diff close in
        let gain := avg_gain delta in
        let loss := avg_loss delta in
        let rs := Pd.div gain loss in
        let RSI := rsi_of_rs rs in
        let MACD := Pd.sub EMA_12 EMA_26 in
        let MACD_signal := Pd.ewm_mean (Pd.alpha_of_span 9) true 0 MACD in
        let sma_20 := Pd.rolling 20 Pd.mean close in
        let std_20 := Pd.rolling 20 (Pd.std sqrt 1) close in
        Some {| DataFrame.bars := df;
                DataFrame.SMA_20 := SMA_20;
                DataFrame.SMA_50 := SMA_50;
                DataFrame.EMA_12 := EMA_12;
                DataFrame.EMA_26 := EMA_26;
                DataFrame.RSI := RSI;
                DataFrame.MACD := MACD;
                DataFrame.MACD_signal := MACD_signal;
                DataFrame.BB_upper := Pd.add sma_20 (Pd.scale std_20 (Np.of_Z 2));
                DataFrame.BB_lower := Pd.sub sma_20 (Pd.scale std_20 (Np.of_Z 2));
                DataFrame.BB_middle := sma_20;
                DataFrame.Support := Support;
                DataFrame.Resistance := Resistance |}
  end.

(** The four rules of [generate_signals], each on the latest row. *)
Definition moving_average_signal (latest : Row.t) : Signal :=
  let close := Close (Row.bar latest) in
  if (close >? Row.SMA_20 latest)%np && (Row.SMA_20 latest >? Row.SMA_50 latest)%np
  then ("Moving Average", "BUY", "Price above both SMA20 and SMA50")
  else if (close <? Row.SMA_20 latest)%np && (Row.SMA_20 latest <? Row.SMA_50 latest)%np
  then ("Moving Average", "SELL", "Price below both SMA20 and SMA50")
  else ("Moving Average", "NEUTRAL", "Mixed moving average signals").

Definition rsi_signal (latest : Row.t) : Signal :=
  if (Row.RSI latest <? Np.of_Z 30)%np
  then ("RSI", "BUY",
        ("Oversold condition (RSI: " ++ Py.format_1f (Row.RSI latest) ++ ")")%string)
  else if (Row.RSI latest >? Np.of_Z 70)%np
  then ("RSI", "SELL",
        ("Overbought condition (RSI: " ++ Py.format_1f (Row.RSI latest) ++ ")")%string)
  else ("RSI", "NEUTRAL", ("Neutral RSI (" ++ Py.format_1f (Row.RSI latest) ++ ")")%string).

Definition macd_signal (latest : Row.t) : Signal :=
  if (Row.MACD latest >? Row.MACD_signal latest)%np
  then ("MACD", "BUY", "MACD above signal line")
  else ("MACD", "SELL", "MACD below signal line").

Definition bollinger_signal (latest : Row.t) : Signal :=
  let close := Close (Row.bar latest) in
  if (close <? Row.BB_lower latest)%np
  then ("Bollinger Bands", "BUY", "Price below lower band")
  else if (close >? Row.BB_upper latest)%np
  then ("Bollinger Bands", "SELL", "Price above upper band")
  else ("Bollinger Bands", "NEUTRAL", "Price within bands").

Definition latest_signals (latest : Row.t) : list Signal :=
  [moving_average_signal latest; rsi_signal latest;
   macd_signal latest; bollinger_signal latest].

(** "Calculate overall signal". *)
Definition buy_signals (signals : list Signal) : nat :=
  length (filter (fun s => String.eqb (verdict s) "BUY") signals).

Definition sell_signals (signals : list Signal) : nat :=
  length (filter (fun s => String.eqb (verdict s) "SELL") signals).

Definition overall_signal (signals : list Signal) : string :=
  if (sell_signals signals <? buy_signals signals)%nat then "BUY"
  else if (buy_signals signals <? sell_signals signals)%nat then "SELL"
  else "NEUTRAL".

(** The returned triple is (signals, overall_signal, df), or
    (None, None, "No data available"). *)
Definition generate_signals (self : TradingAnalyzer)
  : result (option (list Signal) * option string * (DataFrame.t + string)) :=
  match calculate_technical_indicators self with
  | None => Return (None, None, inr "No data available")
  | Some df =>
      match iloc_last df with
      | Raise e => Raise e
      | Return latest =>
          let signals := latest_signals latest in
          Return (Some signals, Some (overall_signal signals), inl df)
      end
  end.

(** [buy_price] is None when the caller leaves the keyword out, and
    [action == "SELL" and buy_price] takes None and 0.0 for false and every
    other float for true.  Multiplying a [current_price] that was never set
    is a TypeError. *)
Definition calculate_price_targets (self : TradingAnalyzer) (action : string)
    (buy_price : option float) : result (option Plan) :=
  match calculate_technical_indicators self with
  | None => Return None
  | Some df =>
      bind (iloc_last df) (fun latest =>
      if String.eqb action "BUY" then
        let support := Row.Support latest in
        match current_price self with
        | None => Raise TypeError
        | Some current_price =>
            let buy_target :=
              Py.max (support * Np.lit 98 100)%np
                     (current_price * Np.lit 95 100)%np in
            let stop_loss := (buy_target * Np.lit 95 100)%np in
            let take_profit := (buy_target * Np.lit 115 100)%np in
            Return (Some [("entry_price", buy_target);
                          ("stop_loss", stop_loss);
                          ("take_profit", take_profit);
                          ("risk_reward",
                           ((take_profit - buy_target)
                            / (buy_target - stop_loss))%np)])
        end
      else if String.eqb action "SELL" then
        match buy_price with
        | None => Return None
        | Some buy_price =>
            if Np.truthy buy_price then
              let resistance := Row.Resistance latest in
              match current_price self with
              | None => Raise TypeError
              | Some current_price =>
                  let sell_target :=
                    Py.min (resistance * Np.lit 102 100)%np
                           (current_price * Np.lit 105 100)%np in
                  let profit_loss := (sell_target - buy_price)%np in
                  let profit_percentage :=
                    (profit_loss / buy_price * Np.of_Z 100)%np in
                  Return (Some [("sell_price", sell_target);
                                ("profit_loss", profit_loss);
                                ("profit_percentage", profit_percentage);
                                ("current_price", current_price)])
              end
            else Return None
        end
      else Return None)
  end.

End Analyzer.

(** ** Sample inputs *)

(** Square root truncated to twelve decimals, used where a run of the
    embedding needs a concrete [sqrt]. *)
Definition sqrt_12 (x : float) : float :=
  match x with
  | Fin q =>
      if Np.Qcltb q 0 then NaN
      else
        let scaled := (Qnum (this q) * 10 ^ 24 / Zpos (Qden (this q)))%Z in
        Fin (Q2Qc (Z.sqrt scaled # 10 ^ 12))
  | PInf => PInf
  | _ => NaN
  end.

(** A bar whose four prices are [p]. *)
Definition flat_bar (p : float) : Bar :=
  {| Open := p; High := p; Low := p; Close := p; Volume := Np.of_Z 1000 |}.

(** [n] bars closing at 1, 2, ..., n. *)
Definition ramp (n : nat) : list Bar :=
  map (fun i => flat_bar (Np.of_nat (S i))) (seq 0 n).

Definition analyzer_of (bars : list Bar) : TradingAnalyzer :=
  {| symbol := "AAPL";
     data := Some bars;
     current_price := match rev bars with b :: _ => Some (Close b) | [] => None end |}.

Definition row_of (close sma20 sma50 rsi macd macd_sig lower upper : float) : Row.t :=
  {| Row.bar := flat_bar close;
     Row.SMA_20 := sma20; Row.SMA_50 := sma50;
     Row.EMA_12 := close; Row.EMA_26 := close;
     Row.RSI := rsi; Row.MACD := macd; Row.MACD_signal := macd_sig;
     Row.BB_upper := upper; Row.BB_lower := lower; Row.BB_middle := sma20;
     Row.Support := close; Row.Resistance := close |}.

(** The scenario of the specification: close 150 above SMA20 145 above
    SMA50 140, RSI 25, MACD 1.2 over its signal 0.8, close under the lower
    band. *)
Definition bullish_row : Row.t :=
  row_of (Np.of_Z 150) (Np.of_Z 145) (Np.of_Z 140) (Np.of_Z 25)
         (Np.lit 12 10) (Np.lit 8 10) (Np.of_Z 152) (Np.of_Z 160).

(** The same row with MACD equal to its signal line. *)
Definition tied_macd_row : Row.t :=
  row_of (Np.of_Z 150) (Np.of_Z 145) (Np.of_Z 140) (Np.of_Z 25)
         (Np.lit 8 10) (Np.lit 8 10) (Np.of_Z 152) (Np.of_Z 160).

(** Twenty bars: nineteen flat at 100, then one with the given low, high
    and close. *)
Definition scenario (low high close : float) : list Bar :=
  map (fun _ => flat_bar (Np.of_Z 100)) (seq 0 19)
  ++ [{| Open := Np.of_Z 100; High := high; Low := low; Close := close;
         Volume := Np.of_Z 1000 |}].

Definition buy_scenario : TradingAnalyzer :=
  analyzer_of (scenario (Np.of_Z 100) (Np.of_Z 105) (Np.of_Z 105)).

Definition sell_scenario : TradingAnalyzer :=
  analyzer_of (scenario (Np.of_Z 100) (Np.of_Z 120) (Np.of_Z 115)).

(** Twenty bars of a price of zero. *)
Definition zero_prices : TradingAnalyzer :=
  analyzer_of (map (fun _ => flat_bar (Np.of_Z 0)) (seq 0 20)).

(** The frame and the latest row of a run, for naming them in examples. *)
Definition empty_frame : DataFrame.t :=
  {| DataFrame.bars := []; DataFrame.SMA_20 := []; DataFrame.SMA_50 := [];
     DataFrame.EMA_12 := []; DataFrame.EMA_26 := []; DataFrame.RSI := [];
     DataFrame.MACD := []; DataFrame.MACD_signal := [];
     DataFrame.BB_upper := []; DataFrame.BB_lower := [];
     DataFrame.BB_middle := []; DataFrame.Support := [];
     DataFrame.Resistance := [] |}.

Definition run_frame (ta : bool) (self : TradingAnalyzer) : DataFrame.t :=
  match calculate_technical_indicators sqrt_12 ta self with
  | Some df => df
  | None => empty_frame
  end.

Definition run_latest (ta : bool) (self : TradingAnalyzer) : Row.t :=
  match iloc_last (run_frame ta self) with
  | Return latest => latest
  | Raise _ => row_of NaN NaN NaN NaN NaN NaN NaN NaN
  end.

(** Thirty-five bars closing at 1, ..., 35; twenty rising bars (every
    change a gain); twenty flat bars. *)
Definition ramp_35 : TradingAnalyzer := analyzer_of (ramp 35).

Definition rising_history : TradingAnalyzer := analyzer_of (ramp 20).

Definition flat_history : TradingAnalyzer :=
  analyzer_of (map (fun _ => flat_bar (Np.of_Z 100)) (seq 0 20)).

(** The multipliers of the BUY plan, as rationals. *)
Definition k95 : Qc := Q2Qc (95 # 100).
Definition k98 : Qc := Q2Qc (98 # 100).
Definition k115 : Qc := Q2Qc (115 # 100).

(** What the latest row says about its MACD column: whether it is a number,
    whether it equals EMA_12 - EMA_26, whether it equals that difference
    minus the signal line, and whether the MACD line EMA_12 - EMA_26 is
    above the signal line. *)
Definition macd_report (latest : Row.t) : bool * bool * bool * bool * Signal :=
  let line := (Row.EMA_12 latest - Row.EMA_26 latest)%np in
  (Np.isfinite (Row.MACD latest),
   Np.eqb (Row.MACD latest) line,
   Np.eqb (Row.MACD latest) (line - Row.MACD_signal latest)%np,
   (line >? Row.MACD_signal latest)%np,
   macd_signal latest).

(** ** The rest of the analyzer and the decisions of main

    [main] is a Streamlit page; what is embedded of it are the values it
    computes and the branch it takes, not the widgets.  A message is the
    Streamlit call and its text after the leading pictograph; a
    recommendation box is its CSS class and its text, again without the
    pictograph. *)

Definition family (s : Signal) : string := fst (fst s).

Definition __init__ (symbol : string) : TradingAnalyzer :=
  {| symbol := symbol; data := None; current_price := None |}.

(** [fetch_data]: [history] is the outcome of [yf.Ticker(...).history(...)],
    a frame or an exception.  The frame is stored before
    [self.data['Close'].iloc[-1]] is read, so an empty frame stays in
    [self.data] when that read raises and the method returns False. *)
Definition fetch_data (self : TradingAnalyzer) (history : result (list Bar))
  : TradingAnalyzer * bool :=
  match history with
  | Raise _ => (self, false)
  | Return df =>
      match rev df with
      | [] =>
          ({| symbol := symbol self; data := Some df;
              current_price := current_price self |}, false)
      | b :: _ =>
          ({| symbol := symbol self; data := Some df;
              current_price := Some (Close b) |}, true)
      end
  end.

(** The "Daily Change" metric of [main]: [iloc[-2]] needs two rows. *)
Definition daily_change (df : DataFrame.t) : result (float * float) :=
  match rev (map Close (DataFrame.bars df)) with
  | last_close :: previous_close :: _ =>
      let change := (last_close - previous_close)%np in
      Return (change, (change / previous_close * Np.of_Z 100)%np)
  | _ => Raise IndexError
  end.

(** The recommendation box of the buy page. *)
Definition buy_recommendation (symbol overall_signal : string) : string * string :=
  if String.eqb overall_signal "BUY"
  then ("buy-signal", "RECOMMENDATION: BUY " ++ symbol)%string
  else if String.eqb overall_signal "SELL"
  then ("sell-signal", "RECOMMENDATION: DO NOT BUY " ++ symbol)%string
  else ("neutral-signal", "RECOMMENDATION: NEUTRAL - WAIT " ++ symbol)%string.


(** The tally of the "Technical Sell Signals" loop and the message under
    it. *)
Definition sell_score (signals : list Signal) : Z :=
  fold_left
    (fun score s =>
       if String.eqb (verdict s) "SELL" then (score + 1)%Z
       else if String.eqb (verdict s) "BUY" then (score - 1)%Z
       else score)
    signals 0%Z.

Inductive st_message : Type :=
| st_warning (text : string)
| st_success (text : string)
| st_info (text : string).

Definition sell_summary (signals : list Signal) : st_message :=
  let score := sell_score signals in
  if (score >? 0)%Z
  then st_warning (Py.str_of_N (Z.to_N score) ++ " indicators suggest selling")%string
  else if (score <? 0)%Z
  then st_success
         (Py.str_of_N (Z.to_N (Z.abs score)) ++ " indicators suggest holding")%string
  else st_info "Mixed signals - consider market conditions".

(** A row as neutral as it gets: every indicator equal to the close. *)
Definition quiet_row : Row.t :=
  row_of (Np.of_Z 100) (Np.of_Z 100) (Np.of_Z 100) (Np.of_Z 50)
         (Np.of_Z 1) (Np.of_Z 0) (Np.of_Z 90) (Np.of_Z 110).

(** ** Rational counterparts used to state properties

    The multipliers of the SELL plan and of the sell page, and the
    aggregates of a column of real numbers computed on the rationals. *)

Definition k102 : Qc := Q2Qc (102 # 100).
Definition k105 : Qc := Q2Qc (105 # 100).

Definition Qc_of_nat (n : nat) : Qc := Q2Qc (inject_Z (Z.of_nat n)).

Definition Qc_sum (qs : list Qc) : Qc := fold_left Qcplus qs 0%Qc.

Definition Qc_min (a b : Qc) : Qc := if Np.Qcltb b a then b else a.
Definition Qc_max (a b : Qc) : Qc := if Np.Qcltb a b then b else a.

(** The [w] rationals ending at bar [i]. *)
Definition span (w i : nat) (qs : list Qc) : list Qc :=
  firstn w (skipn (i + 1 - w) qs).

(** The rationals of a column of real numbers (0 where it has none). *)
Definition reals (s : Pd.Series) : list Qc :=
  map (fun x => match x with Fin q => q | _ => 0%Qc end) s.

(** A [w]-bar rolling mean over the rationals [qs]: nan on the first
    [w - 1] bars, then a number between any two bounds of the [w] values
    of its window. *)
Definition warm_up (w : nat) (qs : list Qc) (column : Pd.Series) : Prop :=
  forall i : nat,
    i < length qs ->
    (i + 1 < w -> nth_error column i = Some NaN) /\
    (w <= i + 1 ->
     exists m : Qc,
       nth_error column i = Some (Fin m) /\
       forall lo hi : Qc,
         (forall q, In q (span w i qs) -> (lo <= q /\ q <= hi)%Qc) ->
         (lo <= m /\ m <= hi)%Qc).

(** * Properties *)

(** ** Comparisons of the numeric model *)

Lemma Qcltb_true (a b : Qc) : Np.Qcltb a b = true <-> (a < b)%Qc.
Proof.
  unfold Np.Qcltb. rewrite Qclt_alt.
  destruct (a ?= b)%Qc; split; intro H; congruence.
Qed.

Lemma Qcltb_false (a b : Qc) : Np.Qcltb a b = false <-> (b <= a)%Qc.
Proof.
  split; intro H.
  - apply Qcnot_lt_le. intro L. apply Qcltb_true in L. congruence.
  - destruct (Np.Qcltb a b) eqn:E; trivial.
    apply Qcltb_true in E. exfalso. exact (Qcle_not_lt _ _ H E).
Qed.

Lemma Qceqb_true (a b : Qc) : Np.Qceqb a b = true <-> a = b.
Proof.
  unfold Np.Qceqb. rewrite Qceq_alt.
  destruct (a ?= b)%Qc; split; intro H; congruence.
Qed.

Lemma Qceqb_refl (a : Qc) : Np.Qceqb a a = true.
Proof. now apply Qceqb_true. Qed.

Lemma ltb_Fin (a b : Qc) : (Fin a <? Fin b)%np = true <-> (a < b)%Qc.
Proof. apply Qcltb_true. Qed.

Lemma gtb_Fin (a b : Qc) : (Fin a >? Fin b)%np = true <-> (b < a)%Qc.
Proof. apply Qcltb_true. Qed.

Lemma ltb_nan_r (x : float) : (x <? NaN)%np = false.
Proof. now destruct x. Qed.

Lemma gtb_nan_l (x : float) : (NaN >? x)%np = false.
Proof. apply ltb_nan_r. Qed.

Lemma gtb_nan_r (x : float) : (x >? NaN)%np = false.
Proof. reflexivity. Qed.

(** A canonical rational is determined by its fraction. *)
Lemma Fin_eq (a b : Qc) : this a = this b -> Fin a = Fin b.
Proof. intro H. f_equal. now apply Qc_is_canon; rewrite H. Qed.

(** Arithmetic of canonical rationals, read on their fractions. *)
Lemma this_Q2Qc (q : Q) : (this (Q2Qc q) == q)%Q.
Proof. apply Qred_correct. Qed.

Lemma this_mul (a b : Qc) : (this (a * b)%Qc == this a * this b)%Q.
Proof. apply Qred_correct. Qed.

Lemma this_add (a b : Qc) : (this (a + b)%Qc == this a + this b)%Q.
Proof. apply Qred_correct. Qed.

Lemma this_opp (a : Qc) : (this (- a)%Qc == - this a)%Q.
Proof. apply Qred_correct. Qed.

Lemma this_inv (a : Qc) : (this (/ a)%Qc == / this a)%Q.
Proof. apply Qred_correct. Qed.

Lemma this_div (a b : Qc) : (this (a / b)%Qc == this a / this b)%Q.
Proof. unfold Qcdiv. rewrite this_mul, this_inv. reflexivity. Qed.

Lemma this_zero (a : Qc) : (this a == 0)%Q <-> a = 0%Qc.
Proof.
  split; intro H.
  - apply Qc_is_canon. exact H.
  - subst. reflexivity.
Qed.

Ltac to_Q :=
  unfold Qclt, Qcle in *;
  repeat rewrite ?this_div, ?this_mul, ?this_add, ?this_opp, ?this_inv,
    ?this_Q2Qc in *;
  change (this 0%Qc) with 0%Q in *.

(** Boolean comparisons in the context become order facts; two facts that
    contradict each other close the goal. *)
Ltac qc_props :=
  repeat match goal with
         | H : Np.Qcltb _ _ = true |- _ => apply Qcltb_true in H
         | H : Np.Qcltb _ _ = false |- _ => apply Qcltb_false in H
         | H : Np.Qceqb _ _ = true |- _ => apply Qceqb_true in H
         end.

Ltac qc_order :=
  match goal with
  | L : (?x < ?y)%Qc, G : (?y <= ?x)%Qc |- _ =>
      exfalso; exact (Qclt_not_le _ _ L G)
  | L : (?x < ?y)%Qc, G : (?y < ?x)%Qc |- _ =>
      exfalso; exact (Qclt_not_le _ _ L (Qclt_le_weak _ _ G))
  end.

(** ** Aggregation of the four verdicts *)

Lemma length_filter_count (v : string) (signals : list Signal) :
  length (filter (fun s => String.eqb (verdict s) v) signals)
  = count_occ string_dec (map verdict signals) v.
Proof.
  induction signals as [| s signals IH]; simpl; trivial.
  destruct (String.eqb_spec (verdict s) v) as [E | E];
    destruct (string_dec (verdict s) v); try contradiction; simpl; congruence.
Qed.

(** C1. The overall verdict is a vote between the BUY and the SELL verdicts
    of the signal list: more BUY than SELL gives BUY, more SELL than BUY
    gives SELL, equal counts (also none of either) give NEUTRAL, and the
    result is one of these three strings. *)
Theorem overall_signal_majority (signals : list Signal) :
  (count_occ string_dec (map verdict signals) "SELL"
   < count_occ string_dec (map verdict signals) "BUY" ->
   overall_signal signals = "BUY") /\
  (count_occ string_dec (map verdict signals) "BUY"
   < count_occ string_dec (map verdict signals) "SELL" ->
   overall_signal signals = "SELL") /\
  (count_occ string_dec (map verdict signals) "BUY"
   = count_occ string_dec (map verdict signals) "SELL" ->
   overall_signal signals = "NEUTRAL") /\
  (overall_signal signals = "BUY" \/ overall_signal signals = "SELL"
   \/ overall_signal signals = "NEUTRAL").
Proof.
  unfold overall_signal, buy_signals, sell_signals.
  rewrite !length_filter_count.
  set (b := count_occ string_dec (map verdict signals) "BUY").
  set (s := count_occ string_dec (map verdict signals) "SELL").
  destruct (Nat.ltb_spec s b); [| destruct (Nat.ltb_spec b s)];
    repeat split; intros; try lia; auto.
Qed.

(** The three tallies named in the specification, on the rows a run
    produces. *)
Lemma overall_signal_examples :
  overall_signal (latest_signals bullish_row) = "BUY" /\
  overall_signal [("Moving Average", "BUY", ""); ("RSI", "BUY", "");
                  ("MACD", "SELL", ""); ("Bollinger Bands", "BUY", "")] = "BUY" /\
  overall_signal [("Moving Average", "BUY", ""); ("RSI", "SELL", "");
                  ("MACD", "SELL", ""); ("Bollinger Bands", "BUY", "")] = "NEUTRAL" /\
  overall_signal [("Moving Average", "NEUTRAL", ""); ("RSI", "NEUTRAL", "");
                  ("MACD", "NEUTRAL", ""); ("Bollinger Bands", "NEUTRAL", "")]
  = "NEUTRAL".
Proof. repeat split; vm_compute; reflexivity. Qed.

(** ** The rules on the latest row *)

(** C9. With close, SMA20 and SMA50 all defined, the Moving Average signal
    is the BUY tuple exactly when close > SMA20 > SMA50, the SELL tuple
    exactly when close < SMA20 < SMA50, and the NEUTRAL tuple in every other
    ordering. *)
Theorem moving_average_rule (latest : Row.t) (c s20 s50 : Qc) :
  Close (Row.bar latest) = Fin c ->
  Row.SMA_20 latest = Fin s20 ->
  Row.SMA_50 latest = Fin s50 ->
  (moving_average_signal latest
   = ("Moving Average", "BUY", "Price above both SMA20 and SMA50")
   <-> (s20 < c /\ s50 < s20)%Qc) /\
  (moving_average_signal latest
   = ("Moving Average", "SELL", "Price below both SMA20 and SMA50")
   <-> (c < s20 /\ s20 < s50)%Qc) /\
  (moving_average_signal latest
   = ("Moving Average", "NEUTRAL", "Mixed moving average signals")
   <-> (~ (s20 < c /\ s50 < s20) /\ ~ (c < s20 /\ s20 < s50))%Qc).
Proof.
  intros Hc H20 H50. unfold moving_average_signal.
  rewrite Hc, H20, H50. unfold Np.gtb, Np.ltb.
  destruct (Np.Qcltb s20 c) eqn:A; destruct (Np.Qcltb s50 s20) eqn:B;
    destruct (Np.Qcltb c s20) eqn:C; destruct (Np.Qcltb s20 s50) eqn:D;
    qc_props; simpl;
    intuition (try discriminate; try reflexivity; try qc_order).
Qed.

Lemma moving_average_rule_witness :
  moving_average_signal bullish_row
  = ("Moving Average", "BUY", "Price above both SMA20 and SMA50").
Proof.
  apply (moving_average_rule bullish_row
           (Q2Qc (inject_Z 150)) (Q2Qc (inject_Z 145)) (Q2Qc (inject_Z 140))
           eq_refl eq_refl eq_refl).
  split; vm_compute; reflexivity.
Defined.

(** C3. With MACD and its signal line both defined, the MACD signal is the
    BUY tuple exactly when MACD > signal and the SELL tuple otherwise; the
    verdict is never NEUTRAL, and equal values give SELL. *)
Theorem macd_rule (latest : Row.t) (m s : Qc) :
  Row.MACD latest = Fin m ->
  Row.MACD_signal latest = Fin s ->
  (macd_signal latest = ("MACD", "BUY", "MACD above signal line")
   <-> (s < m)%Qc) /\
  (macd_signal latest = ("MACD", "SELL", "MACD below signal line")
   <-> (m <= s)%Qc) /\
  verdict (macd_signal latest) <> "NEUTRAL" /\
  (m = s -> verdict (macd_signal latest) = "SELL").
Proof.
  intros Hm Hs. unfold macd_signal. rewrite Hm, Hs. unfold Np.gtb, Np.ltb.
  destruct (Np.Qcltb s m) eqn:A; qc_props; simpl;
    intuition (try discriminate; try reflexivity; try qc_order).
  subst. exfalso. exact (Qclt_not_le _ _ A (Qcle_refl _)).
Qed.

Lemma macd_rule_witness :
  macd_signal bullish_row = ("MACD", "BUY", "MACD above signal line")
  /\ verdict (macd_signal tied_macd_row) = "SELL".
Proof.
  split.
  - apply (macd_rule bullish_row (Q2Qc (12 # 10)) (Q2Qc (8 # 10)) eq_refl eq_refl).
    vm_compute; reflexivity.
  - apply (macd_rule tied_macd_row (Q2Qc (8 # 10)) (Q2Qc (8 # 10)) eq_refl eq_refl).
    reflexivity.
Defined.

(** ** Undefined indicators on the latest row *)

Lemma moving_average_nan (latest : Row.t) :
  Row.SMA_20 latest = NaN \/ Row.SMA_50 latest = NaN ->
  moving_average_signal latest
  = ("Moving Average", "NEUTRAL", "Mixed moving average signals").
Proof.
  unfold moving_average_signal. intros [H | H]; rewrite H.
  - now rewrite gtb_nan_r, ltb_nan_r.
  - now rewrite gtb_nan_r, ltb_nan_r, !andb_false_r.
Qed.

Lemma rsi_nan (latest : Row.t) :
  Row.RSI latest = NaN ->
  rsi_signal latest = ("RSI", "NEUTRAL", "Neutral RSI (nan)").
Proof. unfold rsi_signal. intros ->. reflexivity. Qed.

Lemma macd_nan (latest : Row.t) :
  Row.MACD latest = NaN \/ Row.MACD_signal latest = NaN ->
  macd_signal latest = ("MACD", "SELL", "MACD below signal line").
Proof.
  unfold macd_signal. intros [H | H]; rewrite H.
  - now rewrite gtb_nan_l.
  - now rewrite gtb_nan_r.
Qed.

Lemma bollinger_nan (latest : Row.t) :
  Row.BB_lower latest = NaN -> Row.BB_upper latest = NaN ->
  bollinger_signal latest = ("Bollinger Bands", "NEUTRAL", "Price within bands").
Proof.
  unfold bollinger_signal. intros -> ->.
  now rewrite ltb_nan_r, gtb_nan_r.
Qed.

Lemma indicators_of_data (sqrt : float -> float) (ta : bool)
    (self : TradingAnalyzer) (bars : list Bar) :
  data self = Some bars ->
  exists df, calculate_technical_indicators sqrt ta self = Some df
             /\ DataFrame.bars df = bars.
Proof.
  intro H. unfold calculate_technical_indicators. rewrite H.
  destruct ta; eexists; split; reflexivity.
Qed.

Lemma iloc_last_nonempty (df : DataFrame.t) :
  DataFrame.bars df <> [] -> exists latest, iloc_last df = Return latest.
Proof.
  intro H. unfold iloc_last.
  destruct (rev (DataFrame.bars df)) eqn:E.
  - exfalso. apply H. rewrite <- (rev_involutive (DataFrame.bars df)), E. reflexivity.
  - eexists. reflexivity.
Qed.

(** C2, as the code has it.  On any non-empty price history the generator
    returns its four signals, whatever indicators are undefined (nan) on the
    latest row.  An undefined SMA gives the Moving Average family its
    NEUTRAL tuple, an undefined RSI gives "Neutral RSI (nan)", undefined
    bands give "Price within bands"; the MACD family has no NEUTRAL branch
    and answers SELL when MACD or its signal line is undefined. *)
Theorem undefined_indicator_signals (sqrt : float -> float) (ta : bool)
    (self : TradingAnalyzer) (bars : list Bar) :
  data self = Some bars ->
  bars <> [] ->
  exists df latest,
    iloc_last df = Return latest /\
    generate_signals sqrt ta self
    = Return (Some (latest_signals latest),
              Some (overall_signal (latest_signals latest)), inl df) /\
    (Row.SMA_20 latest = NaN \/ Row.SMA_50 latest = NaN ->
     moving_average_signal latest
     = ("Moving Average", "NEUTRAL", "Mixed moving average signals")) /\
    (Row.RSI latest = NaN ->
     rsi_signal latest = ("RSI", "NEUTRAL", "Neutral RSI (nan)")) /\
    (Row.MACD latest = NaN \/ Row.MACD_signal latest = NaN ->
     macd_signal latest = ("MACD", "SELL", "MACD below signal line")) /\
    (Row.BB_lower latest = NaN -> Row.BB_upper latest = NaN ->
     bollinger_signal latest
     = ("Bollinger Bands", "NEUTRAL", "Price within bands")).
Proof.
  intros Hd Hne.
  destruct (indicators_of_data sqrt ta self bars Hd) as (df & Hdf & Hb).
  destruct (iloc_last_nonempty df) as (latest & Hl); [now rewrite Hb |].
  exists df, latest. split; [exact Hl |]. split.
  - unfold generate_signals. rewrite Hdf, Hl. reflexivity.
  - auto using moving_average_nan, rsi_nan, macd_nan, bollinger_nan.
Qed.

Lemma undefined_indicator_signals_witness :
  exists df latest,
    iloc_last df = Return latest /\
    generate_signals sqrt_12 true (analyzer_of (ramp 30))
    = Return (Some (latest_signals latest),
              Some (overall_signal (latest_signals latest)), inl df).
Proof.
  destruct (undefined_indicator_signals sqrt_12 true (analyzer_of (ramp 30)) (ramp 30))
    as (df & latest & Hl & Hg & _).
  - reflexivity.
  - vm_compute. discriminate.
  - exists df, latest. split; assumption.
Defined.

(** With the ta package and thirty bars of history the MACD columns are
    still undefined on the latest bar, and the MACD family answers SELL. *)
Lemma undefined_macd_counterexample :
  exists df latest,
    calculate_technical_indicators sqrt_12 true (analyzer_of (ramp 30)) = Some df /\
    iloc_last df = Return latest /\
    Row.MACD latest = NaN /\
    Row.MACD_signal latest = NaN /\
    macd_signal latest = ("MACD", "SELL", "MACD below signal line") /\
    verdict (macd_signal latest) <> "NEUTRAL".
Proof.
  exists (run_frame true (analyzer_of (ramp 30))),
         (run_latest true (analyzer_of (ramp 30))).
  split; [reflexivity |].
  split; [reflexivity |].
  assert (E : Row.MACD (run_latest true (analyzer_of (ramp 30))) = NaN)
    by (vm_compute; reflexivity).
  split; [exact E |].
  split; [vm_compute; reflexivity |].
  rewrite (macd_nan _ (or_introl E)).
  split; [reflexivity | discriminate].
Qed.

(** ** Price targets *)

Lemma stop_below_entry (e : Qc) : (0 < e)%Qc -> (e * k95 < e)%Qc.
Proof. unfold k95. intro H. to_Q. lra. Qed.

Lemma entry_below_take (e : Qc) : (0 < e)%Qc -> (e < e * k115)%Qc.
Proof. unfold k115. intro H. to_Q. lra. Qed.

Lemma risk_zero_iff (e : Qc) : (e + - (e * k95))%Qc = 0%Qc <-> e = 0%Qc.
Proof.
  rewrite <- !this_zero. unfold k95. to_Q. split; intro H; lra.
Qed.

Lemma stop_eq_entry_iff (e : Qc) : (e * k95)%Qc = e <-> e = 0%Qc.
Proof.
  rewrite <- this_zero. split; intro H.
  - apply (f_equal this) in H.
    assert (E : (this (e * k95)%Qc == this e)%Q) by (rewrite H; reflexivity).
    unfold k95 in E. to_Q. lra.
  - apply Qc_is_canon. unfold k95. to_Q. lra.
Qed.

Lemma reward_over_risk (e : Qc) :
  e <> 0%Qc -> ((e * k115 + - e) / (e + - (e * k95)))%Qc = Q2Qc (inject_Z 3).
Proof.
  intro H. rewrite <- this_zero in H.
  apply Qc_is_canon. unfold k95, k115. to_Q. field. lra.
Qed.

(** The plan of a BUY request, once the indicators, the latest row and the
    current price are there. *)
Lemma buy_targets_eq (sqrt : float -> float) (ta : bool) (self : TradingAnalyzer)
    (df : DataFrame.t) (latest : Row.t) (p : float) (buy_price : option float) :
  calculate_technical_indicators sqrt ta self = Some df ->
  iloc_last df = Return latest ->
  current_price self = Some p ->
  calculate_price_targets sqrt ta self "BUY" buy_price
  = let buy_target :=
      Py.max (Row.Support latest * Np.lit 98 100)%np (p * Np.lit 95 100)%np in
    let stop_loss := (buy_target * Np.lit 95 100)%np in
    let take_profit := (buy_target * Np.lit 115 100)%np in
    Return (Some [("entry_price", buy_target);
                  ("stop_loss", stop_loss);
                  ("take_profit", take_profit);
                  ("risk_reward",
                   ((take_profit - buy_target) / (buy_target - stop_loss))%np)]).
Proof.
  intros Hdf Hl Hp. unfold calculate_price_targets.
  rewrite Hdf, Hl, Hp. reflexivity.
Qed.

Lemma py_max_Fin (a b : Qc) :
  exists e, Py.max (Fin a) (Fin b) = Fin e
            /\ (a <= e)%Qc /\ (b <= e)%Qc /\ (e = a \/ e = b).
Proof.
  unfold Py.max, Np.gtb, Np.ltb.
  destruct (Np.Qcltb a b) eqn:E; qc_props.
  - exists b. repeat split; auto using Qclt_le_weak, Qcle_refl.
  - exists a. repeat split; auto using Qcle_refl.
Qed.

(** C6. A BUY request on an analyzer with data and a current price [p]
    returns the plan with
    entry_price = max(support * 0.98, p * 0.95),
    stop_loss = entry_price * 0.95, take_profit = entry_price * 1.15 and
    risk_reward = (take_profit - entry_price) / (entry_price - stop_loss);
    for a real support [s] and price [c] the entry is the larger of
    [s * 0.98] and [c * 0.95]. *)
Theorem buy_price_targets (sqrt : float -> float) (ta : bool)
    (self : TradingAnalyzer) (df : DataFrame.t) (latest : Row.t) (p : float)
    (buy_price : option float) :
  calculate_technical_indicators sqrt ta self = Some df ->
  iloc_last df = Return latest ->
  current_price self = Some p ->
  exists entry_price stop_loss take_profit risk_reward : float,
    calculate_price_targets sqrt ta self "BUY" buy_price
    = Return (Some [("entry_price", entry_price);
                    ("stop_loss", stop_loss);
                    ("take_profit", take_profit);
                    ("risk_reward", risk_reward)]) /\
    entry_price
    = Py.max (Row.Support latest * Np.lit 98 100)%np (p * Np.lit 95 100)%np /\
    stop_loss = (entry_price * Np.lit 95 100)%np /\
    take_profit = (entry_price * Np.lit 115 100)%np /\
    risk_reward
    = ((take_profit - entry_price) / (entry_price - stop_loss))%np /\
    (forall s c : Qc,
        Row.Support latest = Fin s -> p = Fin c ->
        exists e : Qc,
          entry_price = Fin e /\
          (s * k98 <= e)%Qc /\ (c * k95 <= e)%Qc /\
          (e = (s * k98)%Qc \/ e = (c * k95)%Qc)).
Proof.
  intros Hdf Hl Hp.
  rewrite (buy_targets_eq sqrt ta self df latest p buy_price Hdf Hl Hp).
  cbv zeta. do 4 eexists. split; [reflexivity |].
  repeat (split; [reflexivity |]).
  intros s c -> ->. apply py_max_Fin.
Qed.

Lemma buy_price_targets_witness :
  exists entry_price stop_loss take_profit risk_reward : float,
    calculate_price_targets sqrt_12 false buy_scenario "BUY" None
    = Return (Some [("entry_price", entry_price);
                    ("stop_loss", stop_loss);
                    ("take_profit", take_profit);
                    ("risk_reward", risk_reward)]) /\
    Np.eqb entry_price (Np.lit 9975 100) = true /\
    Np.eqb stop_loss (Np.lit 947625 10000) = true /\
    Np.eqb take_profit (Np.lit 1147125 10000) = true /\
    Np.eqb risk_reward (Np.of_Z 3) = true.
Proof.
  destruct (buy_price_targets sqrt_12 false buy_scenario
              (run_frame false buy_scenario) (run_latest false buy_scenario)
              (Np.of_Z 105) None)
    as (e & sl & tp & rr & Hret & He & Hsl & Htp & Hrr & _);
    try reflexivity.
  exists e, sl, tp, rr. split; [exact Hret |].
  subst rr tp sl e. repeat split; vm_compute; reflexivity.
Defined.

Lemma risk_reward_Fin (e : Qc) :
  e <> 0%Qc ->
  ((Fin e * Np.lit 115 100 - Fin e) / (Fin e - Fin e * Np.lit 95 100))%np
  = Np.of_Z 3.
Proof.
  intro H. unfold Np.lit, Np.of_Z, Np.sub. simpl.
  fold k95 k115.
  destruct (Np.Qceqb (e + - (e * k95)) 0) eqn:E.
  - qc_props. apply (proj1 (risk_zero_iff e)) in E. contradiction.
  - f_equal. apply reward_over_risk. exact H.
Qed.

Lemma risk_reward_zero :
  ((Fin 0%Qc * Np.lit 115 100 - Fin 0%Qc)
   / (Fin 0%Qc - Fin 0%Qc * Np.lit 95 100))%np = NaN.
Proof. reflexivity. Qed.

(** C10. When the entry price of a BUY plan is a positive number, the stop
    loss lies strictly below it, the take profit strictly above it, and the
    risk/reward ratio is exactly 3, whatever the support level and the
    current price. *)
Theorem buy_plan_risk_reward (sqrt : float -> float) (ta : bool)
    (self : TradingAnalyzer) (df : DataFrame.t) (latest : Row.t) (p : float)
    (buy_price : option float) :
  calculate_technical_indicators sqrt ta self = Some df ->
  iloc_last df = Return latest ->
  current_price self = Some p ->
  exists plan : Plan,
    calculate_price_targets sqrt ta self "BUY" buy_price = Return (Some plan) /\
    forall e : Qc,
      get "entry_price" plan = Some (Fin e) ->
      (0 < e)%Qc ->
      exists stop_loss take_profit : Qc,
        get "stop_loss" plan = Some (Fin stop_loss) /\
        get "take_profit" plan = Some (Fin take_profit) /\
        (stop_loss < e)%Qc /\ (e < take_profit)%Qc /\
        get "risk_reward" plan = Some (Np.of_Z 3).
Proof.
  intros Hdf Hl Hp.
  rewrite (buy_targets_eq sqrt ta self df latest p buy_price Hdf Hl Hp).
  cbv zeta. eexists. split; [reflexivity |].
  intros e He Hpos. simpl in He. injection He as He.
  simpl get. rewrite He.
  exists (e * k95)%Qc, (e * k115)%Qc.
  split; [reflexivity |]. split; [reflexivity |].
  split; [now apply stop_below_entry |].
  split; [now apply entry_below_take |].
  f_equal. apply risk_reward_Fin.
  intros ->. exact (Qclt_not_le _ _ Hpos (Qcle_refl _)).
Qed.

Lemma buy_plan_risk_reward_witness :
  exists plan : Plan,
    calculate_price_targets sqrt_12 false buy_scenario "BUY" None
    = Return (Some plan) /\
    get "risk_reward" plan = Some (Np.of_Z 3).
Proof.
  destruct (buy_plan_risk_reward sqrt_12 false buy_scenario
              (run_frame false buy_scenario) (run_latest false buy_scenario)
              (Np.of_Z 105) None)
    as (plan & Hret & Hplan); try reflexivity.
  exists plan. split; [exact Hret |].
  vm_compute in Hret. injection Hret as <-.
  edestruct Hplan as (sl & tp & _ & _ & _ & _ & Hrr).
  - vm_compute. reflexivity.
  - vm_compute. reflexivity.
  - exact Hrr.
Defined.

(** C7, as the code has it.  The entry price of a BUY plan equals its stop
    loss exactly when the entry price is zero, and in that case the
    calculator raises nothing: it divides 0 by 0 as numpy does and returns
    the plan with risk_reward = nan. *)
Theorem zero_entry_risk_reward (sqrt : float -> float) (ta : bool)
    (self : TradingAnalyzer) (df : DataFrame.t) (latest : Row.t) (p : float)
    (buy_price : option float) :
  calculate_technical_indicators sqrt ta self = Some df ->
  iloc_last df = Return latest ->
  current_price self = Some p ->
  exists plan : Plan,
    calculate_price_targets sqrt ta self "BUY" buy_price = Return (Some plan) /\
    forall e : Qc,
      get "entry_price" plan = Some (Fin e) ->
      exists stop_loss : Qc,
        get "stop_loss" plan = Some (Fin stop_loss) /\
        (stop_loss = e <-> e = 0%Qc) /\
        (e = 0%Qc -> get "risk_reward" plan = Some NaN).
Proof.
  intros Hdf Hl Hp.
  rewrite (buy_targets_eq sqrt ta self df latest p buy_price Hdf Hl Hp).
  cbv zeta. eexists. split; [reflexivity |].
  intros e He. simpl in He. injection He as He.
  simpl get. rewrite He.
  exists (e * k95)%Qc.
  split; [reflexivity |]. split; [apply stop_eq_entry_iff |].
  intros ->. f_equal.
Qed.

Lemma zero_entry_risk_reward_witness :
  exists plan : Plan,
    calculate_price_targets sqrt_12 false zero_prices "BUY" None
    = Return (Some plan) /\
    get "risk_reward" plan = Some NaN.
Proof.
  destruct (zero_entry_risk_reward sqrt_12 false zero_prices
              (run_frame false zero_prices) (run_latest false zero_prices)
              (Np.of_Z 0) None)
    as (plan & Hret & Hplan); try reflexivity.
  exists plan. split; [exact Hret |].
  vm_compute in Hret. injection Hret as <-.
  edestruct Hplan as (sl & _ & _ & Hrr).
  - vm_compute. reflexivity.
  - apply Hrr. apply Qc_is_canon. reflexivity.
Defined.

(** Twenty bars at a price of zero: entry price and stop loss are both zero,
    no exception is raised and the plan carries risk_reward = nan. *)
Lemma zero_entry_counterexample :
  exists entry_price stop_loss take_profit : float,
    calculate_price_targets sqrt_12 false zero_prices "BUY" None
    = Return (Some [("entry_price", entry_price);
                    ("stop_loss", stop_loss);
                    ("take_profit", take_profit);
                    ("risk_reward", NaN)]) /\
    Np.eqb entry_price stop_loss = true /\
    Np.eqb entry_price (Np.of_Z 0) = true.
Proof.
  do 3 eexists. split; [vm_compute; reflexivity |].
  split; reflexivity.
Qed.

Lemma truthy_Fin (q : Qc) : Np.truthy (Fin q) = true <-> q <> 0%Qc.
Proof.
  unfold Np.truthy, Np.eqb, Np.of_Z.
  change (Q2Qc (inject_Z 0)) with 0%Qc.
  destruct (Np.Qceqb q 0) eqn:E; simpl.
  - qc_props. split; [discriminate | intro H; contradiction].
  - split; [| reflexivity]. intros _ ->. rewrite Qceqb_refl in E. discriminate.
Qed.

(** C8, as the code has it.  A SELL request without a basis price, or with
    a basis price of zero, returns no plan.  Every other basis price, a
    negative one included, yields the plan
    sell_price = min(resistance * 1.02, p * 1.05),
    profit_loss = sell_price - basis,
    profit_percentage = profit_loss / basis * 100. *)
Theorem sell_price_targets (sqrt : float -> float) (ta : bool)
    (self : TradingAnalyzer) (df : DataFrame.t) (latest : Row.t) (p : float) :
  calculate_technical_indicators sqrt ta self = Some df ->
  iloc_last df = Return latest ->
  current_price self = Some p ->
  calculate_price_targets sqrt ta self "SELL" None = Return None /\
  calculate_price_targets sqrt ta self "SELL" (Some (Np.of_Z 0)) = Return None /\
  forall basis : Qc,
    basis <> 0%Qc ->
    calculate_price_targets sqrt ta self "SELL" (Some (Fin basis))
    = let sell_target :=
        Py.min (Row.Resistance latest * Np.lit 102 100)%np
               (p * Np.lit 105 100)%np in
      Return (Some [("sell_price", sell_target);
                    ("profit_loss", (sell_target - Fin basis)%np);
                    ("profit_percentage",
                     ((sell_target - Fin basis) / Fin basis * Np.of_Z 100)%np);
                    ("current_price", p)]).
Proof.
  intros Hdf Hl Hp. unfold calculate_price_targets.
  rewrite Hdf, Hl, Hp. simpl bind.
  change (String.eqb "SELL" "BUY") with false.
  change (String.eqb "SELL" "SELL") with true. cbv iota.
  split; [reflexivity |]. split; [reflexivity |].
  intros basis Hb. apply truthy_Fin in Hb. rewrite Hb. reflexivity.
Qed.

Lemma sell_price_targets_witness :
  exists sell_price profit_loss profit_percentage : float,
    calculate_price_targets sqrt_12 false sell_scenario "SELL"
      (Some (Fin (Q2Qc (inject_Z 100))))
    = Return (Some [("sell_price", sell_price);
                    ("profit_loss", profit_loss);
                    ("profit_percentage", profit_percentage);
                    ("current_price", Np.of_Z 115)]) /\
    Np.eqb sell_price (Np.lit 12075 100) = true /\
    Np.eqb profit_loss (Np.lit 2075 100) = true /\
    Np.eqb profit_percentage (Np.lit 2075 100) = true.
Proof.
  destruct (sell_price_targets sqrt_12 false sell_scenario
              (run_frame false sell_scenario) (run_latest false sell_scenario)
              (Np.of_Z 115) eq_refl eq_refl eq_refl) as (_ & _ & Hplan).
  do 3 eexists. split.
  - apply Hplan. vm_compute. discriminate.
  - repeat split; vm_compute; reflexivity.
Defined.

(** A basis price of -100 is below zero and still yields a plan. *)
Lemma negative_basis_counterexample :
  exists plan : Plan,
    calculate_price_targets sqrt_12 false sell_scenario "SELL"
      (Some (Np.of_Z (-100)))
    = Return (Some plan) /\
    (Np.of_Z (-100) <? Np.of_Z 0)%np = true /\
    Np.eqb (match get "profit_percentage" plan with Some x => x | None => NaN end)
           (Np.lit (-22075) 100) = true.
Proof.
  eexists. split; [vm_compute; reflexivity |].
  split; vm_compute; reflexivity.
Qed.

(** ** The fallback RSI *)

Lemma nth_error_zip_with (f : float -> float -> float) (a b : Pd.Series)
    (i : nat) (x y : float) :
  nth_error a i = Some x -> nth_error b i = Some y ->
  nth_error (Pd.zip_with f a b) i = Some (f x y).
Proof.
  revert b i. induction a as [| u a IH]; intros [| v b] [| i] Ha Hb;
    simpl in *; try discriminate.
  - congruence.
  - now apply IH.
Qed.

Lemma rsi_all_gain (g : Qc) :
  (0 < g)%Qc ->
  (Np.of_Z 100 - Np.of_Z 100 / (Np.of_Z 1 + Fin g / Fin 0%Qc))%np = Np.of_Z 100.
Proof.
  intro H. unfold Np.div at 2.
  rewrite Qceqb_refl.
  destruct (Np.Qceqb g 0) eqn:E.
  - qc_props. subst. exfalso. exact (Qclt_not_le _ _ H (Qcle_refl _)).
  - apply Qcltb_true in H. rewrite H. apply Fin_eq. reflexivity.
Qed.

Lemma rsi_flat :
  (Np.of_Z 100 - Np.of_Z 100 / (Np.of_Z 1 + Fin 0%Qc / Fin 0%Qc))%np = NaN.
Proof. reflexivity. Qed.

(** C5, as the code has it (the fallback path, where the repository
    computes RSI itself).  At a bar where the 14-bar average gain [g] and
    average loss are numbers and the average loss is 0: a positive [g]
    gives RSI = 100, through gain / 0 = inf and without any failure, and
    [g] = 0 (a flat window) gives RSI = nan, that is an undefined RSI. *)
Theorem manual_rsi_zero_loss (sqrt : float -> float) (self : TradingAnalyzer)
    (bars : list Bar) (i : nat) (g l : Qc) :
  data self = Some bars ->
  nth_error (avg_gain (Pd.diff (map Close bars))) i = Some (Fin g) ->
  nth_error (avg_loss (Pd.diff (map Close bars))) i = Some (Fin l) ->
  l = 0%Qc ->
  exists df : DataFrame.t,
    calculate_technical_indicators sqrt false self = Some df /\
    ((0 < g)%Qc -> nth_error (DataFrame.RSI df) i = Some (Np.of_Z 100)) /\
    (g = 0%Qc -> nth_error (DataFrame.RSI df) i = Some NaN).
Proof.
  intros Hd Hg Hl ->. unfold calculate_technical_indicators. rewrite Hd.
  eexists. split; [reflexivity |]. cbv zeta. simpl DataFrame.RSI.
  unfold rsi_of_rs, Pd.div.
  rewrite nth_error_map, (nth_error_zip_with _ _ _ _ _ _ Hg Hl). simpl option_map.
  split.
  - intro Hpos. f_equal. now apply rsi_all_gain.
  - intros ->. f_equal.
Qed.

Lemma manual_rsi_zero_loss_witness :
  nth_error (DataFrame.RSI (run_frame false rising_history)) 19
  = Some (Np.of_Z 100)
  /\ nth_error (DataFrame.RSI (run_frame false flat_history)) 19 = Some NaN.
Proof.
  split.
  - edestruct (manual_rsi_zero_loss sqrt_12 rising_history (ramp 20) 19)
      as (df & Hdf & Hpos & _).
    + reflexivity.
    + vm_compute. reflexivity.
    + vm_compute. reflexivity.
    + apply Qc_is_canon. reflexivity.
    + unfold run_frame. rewrite Hdf. apply Hpos. vm_compute. reflexivity.
  - edestruct (manual_rsi_zero_loss sqrt_12 flat_history
                 (map (fun _ => flat_bar (Np.of_Z 100)) (seq 0 20)) 19)
      as (df & Hdf & _ & Hflat).
    + reflexivity.
    + vm_compute. reflexivity.
    + vm_compute. reflexivity.
    + apply Qc_is_canon. reflexivity.
    + unfold run_frame. rewrite Hdf. apply Hflat. apply Qc_is_canon. reflexivity.
Defined.

(** On twenty bars of a constant price the window at the last bar has
    average gain 0 and average loss 0, and the RSI there is nan, not 50. *)
Lemma flat_rsi_counterexample :
  exists (df : DataFrame.t) (gain loss : float),
    calculate_technical_indicators sqrt_12 false flat_history = Some df /\
    nth_error (avg_gain (Pd.diff (map Close (DataFrame.bars df)))) 19 = Some gain /\
    nth_error (avg_loss (Pd.diff (map Close (DataFrame.bars df)))) 19 = Some loss /\
    Np.eqb gain (Np.of_Z 0) = true /\
    Np.eqb loss (Np.of_Z 0) = true /\
    nth_error (DataFrame.RSI df) 19 = Some NaN /\
    nth_error (DataFrame.RSI df) 19 <> Some (Np.of_Z 50).
Proof.
  exists (run_frame false flat_history). do 2 eexists.
  split; [reflexivity |].
  split; [vm_compute; reflexivity |].
  split; [vm_compute; reflexivity |].
  split; [reflexivity |]. split; [reflexivity |].
  assert (E : nth_error (DataFrame.RSI (run_frame false flat_history)) 19 = Some NaN)
    by (vm_compute; reflexivity).
  split; [exact E |]. rewrite E. discriminate.
Qed.

(** The ta path differs on the flat window: its RSI is 100 wherever the
    smoothed loss is zero, whatever the smoothed gain. *)
Lemma precise_rsi_zero_loss (close : Pd.Series) (i : nat) (up : float) :
  nth_error (Ta.emaup close 14) i = Some up ->
  nth_error (Ta.emadn close 14) i = Some (Np.of_Z 0) ->
  nth_error (Ta.rsi close 14) i = Some (Np.of_Z 100).
Proof.
  intros Hup Hdn. unfold Ta.rsi, Pd.div. cbv zeta.
  rewrite (nth_error_zip_with _ _ _ _ _ _ Hdn
             (nth_error_zip_with _ _ _ _ _ _ Hup Hdn)).
  reflexivity.
Qed.

Lemma precise_rsi_flat :
  nth_error (DataFrame.RSI (run_frame true flat_history)) 19
  = Some (Np.of_Z 100).
Proof. vm_compute. reflexivity. Qed.

(** ** The MACD columns *)

Lemma ewm_loop_length (alpha : float) (adjust : bool) (minp : nat)
    (st : Pd.ewm_state) (vals : Pd.Series) :
  length (Pd.ewm_loop alpha adjust minp st vals) = length vals.
Proof.
  revert st. induction vals as [| v vals IH]; intro st; simpl; [| rewrite IH];
    reflexivity.
Qed.

Lemma ewm_mean_length (alpha : float) (adjust : bool) (minp : nat)
    (vals : Pd.Series) :
  length (Pd.ewm_mean alpha adjust minp vals) = length vals.
Proof.
  destruct vals; simpl; [| rewrite ewm_loop_length]; reflexivity.
Qed.

Lemma zip_with_length (f : float -> float -> float) (a b : Pd.Series) :
  length a = length b -> length (Pd.zip_with f a b) = length a.
Proof.
  revert b. induction a as [| x a IH]; intros [| y b] H; simpl in *;
    try discriminate; auto.
Qed.

(** The fallback path: the MACD column is EMA_12 - EMA_26 bar by bar, over
    the whole history, and the signal column is the span-9 average of that
    column. *)
Lemma manual_macd_columns (sqrt : float -> float) (self : TradingAnalyzer)
    (bars : list Bar) :
  data self = Some bars ->
  exists df : DataFrame.t,
    calculate_technical_indicators sqrt false self = Some df /\
    length (DataFrame.MACD df) = length bars /\
    DataFrame.MACD_signal df
    = Pd.ewm_mean (Pd.alpha_of_span 9) true 0 (DataFrame.MACD df) /\
    forall (i : nat) (x y : float),
      nth_error (DataFrame.EMA_12 df) i = Some x ->
      nth_error (DataFrame.EMA_26 df) i = Some y ->
      nth_error (DataFrame.MACD df) i = Some (x - y)%np.
Proof.
  intro Hd. unfold calculate_technical_indicators. rewrite Hd.
  eexists. split; [reflexivity |]. cbv zeta. simpl.
  split; [| split; [reflexivity |]].
  - unfold Pd.sub. rewrite zip_with_length; rewrite !ewm_mean_length;
      try reflexivity. apply length_map.
  - intros i x y Hx Hy. now apply nth_error_zip_with.
Qed.

(** The ta path: the MACD column is what [macd_diff] returns, the MACD line
    EMA_12 - EMA_26 minus its signal line. *)
Lemma precise_macd_columns (sqrt : float -> float) (self : TradingAnalyzer)
    (bars : list Bar) :
  data self = Some bars ->
  exists df : DataFrame.t,
    calculate_technical_indicators sqrt true self = Some df /\
    DataFrame.MACD_signal df
    = Ta._ema (Pd.sub (DataFrame.EMA_12 df) (DataFrame.EMA_26 df)) 9 /\
    forall (i : nat) (x y z : float),
      nth_error (DataFrame.EMA_12 df) i = Some x ->
      nth_error (DataFrame.EMA_26 df) i = Some y ->
      nth_error (DataFrame.MACD_signal df) i = Some z ->
      nth_error (DataFrame.MACD df) i = Some (x - y - z)%np.
Proof.
  intro Hd. unfold calculate_technical_indicators. rewrite Hd.
  eexists. split; [reflexivity |]. cbv zeta. simpl.
  split; [reflexivity |].
  intros i x y z Hx Hy Hz. unfold Ta.macd_diff, Pd.sub.
  apply nth_error_zip_with; [| exact Hz].
  now apply nth_error_zip_with.
Qed.

(** C4.  With ta available and closes 1, 2, ..., 35 the MACD column of the
    latest bar is a number different from EMA_12 - EMA_26: it is that
    difference minus the signal line, and the MACD family answers SELL
    although EMA_12 - EMA_26 is above the signal line.  On the same history
    the fallback path stores EMA_12 - EMA_26 at every bar. *)
Theorem precise_macd_is_histogram :
  calculate_technical_indicators sqrt_12 true ramp_35
  = Some (run_frame true ramp_35) /\
  iloc_last (run_frame true ramp_35) = Return (run_latest true ramp_35) /\
  macd_report (run_latest true ramp_35)
  = (true, false, true, true, ("MACD", "SELL", "MACD below signal line")) /\
  exists manual : DataFrame.t,
    calculate_technical_indicators sqrt_12 false ramp_35 = Some manual /\
    forall (i : nat) (x y : float),
      nth_error (DataFrame.EMA_12 manual) i = Some x ->
      nth_error (DataFrame.EMA_26 manual) i = Some y ->
      nth_error (DataFrame.MACD manual) i = Some (x - y)%np.
Proof.
  split; [reflexivity |]. split; [reflexivity |].
  split; [vm_compute; reflexivity |].
  destruct (manual_macd_columns sqrt_12 ramp_35 (ramp 35) eq_refl)
    as (df & Hdf & _ & _ & Hcol).
  exists df. split; assumption.
Qed.

(** * Further properties of the analyzer and of main *)

(** ** The RSI and Bollinger rules *)

(** X1. With a defined RSI [r] the RSI signal is BUY exactly when r < 30 and
    SELL exactly when r > 70; 30 and 70 themselves are NEUTRAL.  The
    explanation carries the RSI formatted with one decimal. *)
Theorem rsi_rule (latest : Row.t) (r : Qc) :
  Row.RSI latest = Fin r ->
  (rsi_signal latest
   = ("RSI", "BUY",
      ("Oversold condition (RSI: " ++ Py.format_1f (Fin r) ++ ")")%string)
   <-> (r < Q2Qc (inject_Z 30))%Qc) /\
  (rsi_signal latest
   = ("RSI", "SELL",
      ("Overbought condition (RSI: " ++ Py.format_1f (Fin r) ++ ")")%string)
   <-> (Q2Qc (inject_Z 70) < r)%Qc) /\
  (rsi_signal latest
   = ("RSI", "NEUTRAL", ("Neutral RSI (" ++ Py.format_1f (Fin r) ++ ")")%string)
   <-> (Q2Qc (inject_Z 30) <= r /\ r <= Q2Qc (inject_Z 70))%Qc).
Proof.
  intro Hr. unfold rsi_signal. rewrite Hr. unfold Np.gtb, Np.ltb, Np.of_Z.
  assert (L : (Q2Qc (inject_Z 30) < Q2Qc (inject_Z 70))%Qc) by reflexivity.
  destruct (Np.Qcltb r (Q2Qc (inject_Z 30))) eqn:A;
    destruct (Np.Qcltb (Q2Qc (inject_Z 70)) r) eqn:B; qc_props;
    try (exfalso;
         exact (Qclt_not_le _ _ L
                  (Qclt_le_weak _ _ (Qclt_trans _ _ _ B A))));
    intuition (try discriminate; try reflexivity; try qc_order).
Qed.

Lemma rsi_rule_witness :
  verdict (rsi_signal bullish_row) = "BUY"
  /\ rsi_signal bullish_row = ("RSI", "BUY", "Oversold condition (RSI: 25.0)").
Proof.
  assert (H : rsi_signal bullish_row
              = ("RSI", "BUY", "Oversold condition (RSI: 25.0)")).
  { apply (rsi_rule bullish_row (Q2Qc (inject_Z 25)) eq_refl). reflexivity. }
  rewrite H. split; reflexivity.
Defined.

(** X2. With close and both bands defined, the Bollinger signal is BUY
    exactly when close < lower band, SELL exactly when close is not below
    the lower band and close > upper band, and NEUTRAL exactly when
    lower <= close <= upper. *)
Theorem bollinger_rule (latest : Row.t) (c lo up : Qc) :
  Close (Row.bar latest) = Fin c ->
  Row.BB_lower latest = Fin lo ->
  Row.BB_upper latest = Fin up ->
  (bollinger_signal latest = ("Bollinger Bands", "BUY", "Price below lower band")
   <-> (c < lo)%Qc) /\
  (bollinger_signal latest = ("Bollinger Bands", "SELL", "Price above upper band")
   <-> (lo <= c /\ up < c)%Qc) /\
  (bollinger_signal latest = ("Bollinger Bands", "NEUTRAL", "Price within bands")
   <-> (lo <= c /\ c <= up)%Qc).
Proof.
  intros Hc Hlo Hup. unfold bollinger_signal. rewrite Hc, Hlo, Hup.
  unfold Np.gtb, Np.ltb.
  destruct (Np.Qcltb c lo) eqn:A; destruct (Np.Qcltb up c) eqn:B; qc_props;
    intuition (try discriminate; try reflexivity; try qc_order).
Qed.

Lemma bollinger_rule_witness :
  bollinger_signal bullish_row
  = ("Bollinger Bands", "BUY", "Price below lower band").
Proof.
  apply (bollinger_rule bullish_row (Q2Qc (inject_Z 150)) (Q2Qc (inject_Z 152))
           (Q2Qc (inject_Z 160)) eq_refl eq_refl eq_refl).
  reflexivity.
Defined.

(** ** The signal list *)

Lemma moving_average_shape (latest : Row.t) :
  family (moving_average_signal latest) = "Moving Average" /\
  (verdict (moving_average_signal latest) = "BUY"
   \/ verdict (moving_average_signal latest) = "SELL"
   \/ verdict (moving_average_signal latest) = "NEUTRAL").
Proof.
  unfold moving_average_signal.
  repeat match goal with |- context [if ?b then _ else _] => destruct b end;
    simpl; auto.
Qed.

Lemma rsi_shape (latest : Row.t) :
  family (rsi_signal latest) = "RSI" /\
  (verdict (rsi_signal latest) = "BUY" \/ verdict (rsi_signal latest) = "SELL"
   \/ verdict (rsi_signal latest) = "NEUTRAL").
Proof.
  unfold rsi_signal.
  repeat match goal with |- context [if ?b then _ else _] => destruct b end;
    simpl; auto.
Qed.

Lemma macd_shape (latest : Row.t) :
  family (macd_signal latest) = "MACD" /\
  (verdict (macd_signal latest) = "BUY" \/ verdict (macd_signal latest) = "SELL").
Proof.
  unfold macd_signal.
  destruct (Row.MACD latest >? Row.MACD_signal latest)%np; simpl; auto.
Qed.

Lemma bollinger_shape (latest : Row.t) :
  family (bollinger_signal latest) = "Bollinger Bands" /\
  (verdict (bollinger_signal latest) = "BUY"
   \/ verdict (bollinger_signal latest) = "SELL"
   \/ verdict (bollinger_signal latest) = "NEUTRAL").
Proof.
  unfold bollinger_signal.
  repeat match goal with |- context [if ?b then _ else _] => destruct b end;
    simpl; auto.
Qed.

(** X3. On a non-empty price history [generate_signals] returns exactly
    four signals, for the families Moving Average, RSI, MACD and Bollinger
    Bands in this order, each with a verdict among BUY, SELL and NEUTRAL and
    the MACD one never NEUTRAL, together with the overall verdict of that
    list and the frame of the same bars. *)
Theorem generate_signals_shape (sqrt : float -> float) (ta : bool)
    (self : TradingAnalyzer) (bars : list Bar) :
  data self = Some bars ->
  bars <> [] ->
  exists (signals : list Signal) (df : DataFrame.t),
    generate_signals sqrt ta self
    = Return (Some signals, Some (overall_signal signals), inl df) /\
    DataFrame.bars df = bars /\
    map family signals = ["Moving Average"; "RSI"; "MACD"; "Bollinger Bands"] /\
    Forall (fun s => verdict s = "BUY" \/ verdict s = "SELL"
                     \/ verdict s = "NEUTRAL") signals /\
    (forall s, In s signals -> family s = "MACD" -> verdict s <> "NEUTRAL").
Proof.
  intros Hd Hne.
  destruct (indicators_of_data sqrt ta self bars Hd) as (df & Hdf & Hb).
  destruct (iloc_last_nonempty df) as (latest & Hl); [now rewrite Hb |].
  exists (latest_signals latest), df.
  split; [unfold generate_signals; rewrite Hdf, Hl; reflexivity |].
  split; [exact Hb |].
  destruct (moving_average_shape latest) as [F1 V1].
  destruct (rsi_shape latest) as [F2 V2].
  destruct (macd_shape latest) as [F3 V3].
  destruct (bollinger_shape latest) as [F4 V4].
  unfold latest_signals. split; [simpl; congruence |].
  split.
  - repeat (apply Forall_cons; [tauto |]). apply Forall_nil.
  - intros s [<- | [<- | [<- | [<- | []]]]] Hf; try congruence.
    destruct V3 as [-> | ->]; discriminate.
Qed.

Lemma generate_signals_shape_witness :
  exists (signals : list Signal) (df : DataFrame.t),
    generate_signals sqrt_12 false buy_scenario
    = Return (Some signals, Some (overall_signal signals), inl df) /\
    length signals = 4.
Proof.
  destruct (generate_signals_shape sqrt_12 false buy_scenario
              (scenario (Np.of_Z 100) (Np.of_Z 105) (Np.of_Z 105)) eq_refl)
    as (signals & df & Hg & _ & Hf & _).
  - vm_compute. discriminate.
  - exists signals, df. split; [exact Hg |].
    rewrite <- (length_map family), Hf. reflexivity.
Defined.

Lemma overall_of_verdicts (a b : list Signal) :
  map verdict a = map verdict b -> overall_signal a = overall_signal b.
Proof.
  intro H. unfold overall_signal, buy_signals, sell_signals.
  rewrite !length_filter_count, H. reflexivity.
Qed.

(** X4. When the Moving Average, RSI and Bollinger verdicts are all
    NEUTRAL, the overall verdict is the MACD verdict, hence BUY or SELL and
    never NEUTRAL: the MACD rule alone decides. *)
Theorem macd_decides_when_others_neutral (latest : Row.t) :
  verdict (moving_average_signal latest) = "NEUTRAL" ->
  verdict (rsi_signal latest) = "NEUTRAL" ->
  verdict (bollinger_signal latest) = "NEUTRAL" ->
  overall_signal (latest_signals latest) = verdict (macd_signal latest) /\
  overall_signal (latest_signals latest) <> "NEUTRAL".
Proof.
  intros H1 H2 H4.
  destruct (macd_shape latest) as [_ [H3 | H3]].
  - rewrite (overall_of_verdicts (latest_signals latest)
               [("", "NEUTRAL", ""); ("", "NEUTRAL", ""); ("", "BUY", "");
                ("", "NEUTRAL", "")]).
    + rewrite H3. split; [reflexivity | discriminate].
    + unfold latest_signals. simpl map. rewrite H1, H2, H3, H4. reflexivity.
  - rewrite (overall_of_verdicts (latest_signals latest)
               [("", "NEUTRAL", ""); ("", "NEUTRAL", ""); ("", "SELL", "");
                ("", "NEUTRAL", "")]).
    + rewrite H3. split; [reflexivity | discriminate].
    + unfold latest_signals. simpl map. rewrite H1, H2, H3, H4. reflexivity.
Qed.

Lemma macd_decides_when_others_neutral_witness :
  overall_signal (latest_signals quiet_row) = "BUY".
Proof.
  destruct (macd_decides_when_others_neutral quiet_row) as [H _];
    [reflexivity .. | rewrite H; reflexivity].
Defined.

(** ** The sell page of main *)

Lemma sell_score_acc (signals : list Signal) (acc : Z) :
  fold_left
    (fun score s =>
       if String.eqb (verdict s) "SELL" then (score + 1)%Z
       else if String.eqb (verdict s) "BUY" then (score - 1)%Z
       else score)
    signals acc
  = (acc + Z.of_nat (sell_signals signals) - Z.of_nat (buy_signals signals))%Z.
Proof.
  revert acc. unfold sell_signals, buy_signals.
  induction signals as [| s signals IH]; intro acc; simpl.
  - lia.
  - rewrite IH.
    destruct (String.eqb_spec (verdict s) "SELL") as [E | E].
    + rewrite E. simpl length. lia.
    + destruct (String.eqb (verdict s) "BUY"); simpl length; lia.
Qed.

Lemma sell_score_counts (signals : list Signal) :
  sell_score signals
  = (Z.of_nat (sell_signals signals) - Z.of_nat (buy_signals signals))%Z.
Proof. unfold sell_score. rewrite sell_score_acc. lia. Qed.

(** X5. The tally of the sell page is the number of SELL verdicts minus the
    number of BUY verdicts, and its sign agrees with the overall verdict:
    positive exactly when the overall verdict is SELL, negative exactly when
    it is BUY, zero exactly when it is NEUTRAL. *)
Theorem sell_score_agrees_with_overall (signals : list Signal) :
  sell_score signals
  = (Z.of_nat (sell_signals signals) - Z.of_nat (buy_signals signals))%Z /\
  ((0 < sell_score signals)%Z <-> overall_signal signals = "SELL") /\
  ((sell_score signals < 0)%Z <-> overall_signal signals = "BUY") /\
  (sell_score signals = 0%Z <-> overall_signal signals = "NEUTRAL").
Proof.
  split; [apply sell_score_counts |].
  rewrite sell_score_counts. unfold overall_signal.
  destruct (Nat.ltb_spec (sell_signals signals) (buy_signals signals));
    [| destruct (Nat.ltb_spec (buy_signals signals) (sell_signals signals))];
    repeat split; intros; try discriminate; try lia.
Qed.

(** X6. The message under the sell signals follows the overall verdict: a
    warning with the surplus of SELL verdicts when it is SELL, a success
    message with the surplus of BUY verdicts when it is BUY, the "mixed
    signals" note when it is NEUTRAL. *)
Theorem sell_summary_follows_overall (signals : list Signal) :
  (overall_signal signals = "SELL" ->
   sell_summary signals
   = st_warning
       (Py.str_of_N (N.of_nat (sell_signals signals - buy_signals signals))
        ++ " indicators suggest selling")%string) /\
  (overall_signal signals = "BUY" ->
   sell_summary signals
   = st_success
       (Py.str_of_N (N.of_nat (buy_signals signals - sell_signals signals))
        ++ " indicators suggest holding")%string) /\
  (overall_signal signals = "NEUTRAL" ->
   sell_summary signals = st_info "Mixed signals - consider market conditions").
Proof.
  unfold sell_summary, overall_signal. cbv zeta.
  rewrite sell_score_counts.
  set (b := buy_signals signals). set (s := sell_signals signals).
  destruct (Nat.ltb_spec s b) as [Hsb | Hsb];
    [| destruct (Nat.ltb_spec b s) as [Hbs | Hbs]];
    repeat split; intro H; try discriminate.
  - destruct (Z.gtb_spec (Z.of_nat s - Z.of_nat b) 0); [lia |].
    destruct (Z.ltb_spec (Z.of_nat s - Z.of_nat b) 0); [| lia].
    do 3 f_equal. lia.
  - destruct (Z.gtb_spec (Z.of_nat s - Z.of_nat b) 0); [| lia].
    do 3 f_equal. lia.
  - destruct (Z.gtb_spec (Z.of_nat s - Z.of_nat b) 0); [lia |].
    destruct (Z.ltb_spec (Z.of_nat s - Z.of_nat b) 0); [lia |].
    reflexivity.
Qed.

(** ** fetch_data and what follows it *)

Lemma sell_targets_eq (sqrt : float -> float) (ta : bool) (self : TradingAnalyzer)
    (df : DataFrame.t) (latest : Row.t) (p : float) (basis : Qc) :
  calculate_technical_indicators sqrt ta self = Some df ->
  iloc_last df = Return latest ->
  current_price self = Some p ->
  basis <> 0%Qc ->
  calculate_price_targets sqrt ta self "SELL" (Some (Fin basis))
  = let sell_target :=
      Py.min (Row.Resistance latest * Np.lit 102 100)%np
             (p * Np.lit 105 100)%np in
    Return (Some [("sell_price", sell_target);
                  ("profit_loss", (sell_target - Fin basis)%np);
                  ("profit_percentage",
                   ((sell_target - Fin basis) / Fin basis * Np.of_Z 100)%np);
                  ("current_price", p)]).
Proof.
  intros Hdf Hl Hp Hb. unfold calculate_price_targets.
  rewrite Hdf, Hl, Hp. simpl bind.
  change (String.eqb "SELL" "BUY") with false.
  change (String.eqb "SELL" "SELL") with true. cbv iota.
  apply truthy_Fin in Hb. rewrite Hb. reflexivity.
Qed.

Lemma rev_cons_last (bars : list Bar) (b : Bar) (rest : list Bar) :
  rev bars = b :: rest -> bars = rev rest ++ [b].
Proof.
  intro H. rewrite <- (rev_involutive bars), H. reflexivity.
Qed.

(** X7. When [fetch_data] returns True the analyzer holds a non-empty
    history whose last close is the current price, and from there nothing
    fails: [generate_signals] returns its signals (never the "No data
    available" triple, never an exception), a BUY request returns a plan and
    so does a SELL request with any non-zero basis price. *)
Theorem fetch_data_success (sqrt : float -> float) (ta : bool)
    (self self' : TradingAnalyzer) (history : result (list Bar)) :
  fetch_data self history = (self', true) ->
  exists (bars : list Bar) (b : Bar),
    history = Return (bars ++ [b]) /\
    data self' = Some (bars ++ [b]) /\
    current_price self' = Some (Close b) /\
    symbol self' = symbol self /\
    (exists (signals : list Signal) (df : DataFrame.t),
        generate_signals sqrt ta self'
        = Return (Some signals, Some (overall_signal signals), inl df)) /\
    (exists plan : Plan,
        calculate_price_targets sqrt ta self' "BUY" None = Return (Some plan)) /\
    (forall basis : Qc,
        basis <> 0%Qc ->
        exists plan : Plan,
          calculate_price_targets sqrt ta self' "SELL" (Some (Fin basis))
          = Return (Some plan)).
Proof.
  unfold fetch_data. destruct history as [df | e]; [| discriminate].
  destruct (rev df) as [| b rest] eqn:E; [discriminate |].
  intro H. injection H as <-. apply rev_cons_last in E. subst df.
  exists (rev rest), b. simpl.
  repeat (split; [reflexivity |]).
  set (self' := {| symbol := symbol self; data := Some (rev rest ++ [b]);
                   current_price := Some (Close b) |}).
  destruct (indicators_of_data sqrt ta self' (rev rest ++ [b]) eq_refl)
    as (df & Hdf & Hb).
  destruct (iloc_last_nonempty df) as (latest & Hl).
  { rewrite Hb. now destruct (rev rest). }
  split; [| split].
  - exists (latest_signals latest), df.
    unfold generate_signals. rewrite Hdf, Hl. reflexivity.
  - rewrite (buy_targets_eq sqrt ta self' df latest (Close b) None Hdf Hl eq_refl).
    eexists. reflexivity.
  - intros basis Hbasis.
    rewrite (sell_targets_eq sqrt ta self' df latest (Close b) basis
               Hdf Hl eq_refl Hbasis).
    eexists. reflexivity.
Qed.

Lemma fetch_data_success_witness :
  exists plan : Plan,
    calculate_price_targets sqrt_12 false
      (fst (fetch_data (__init__ "AAPL") (Return (ramp 20)))) "BUY" None
    = Return (Some plan).
Proof.
  destruct (fetch_data_success sqrt_12 false (__init__ "AAPL")
              (fst (fetch_data (__init__ "AAPL") (Return (ramp 20))))
              (Return (ramp 20)))
    as (bars & b & _ & _ & _ & _ & _ & Hbuy & _).
  - reflexivity.
  - exact Hbuy.
Defined.

(** X8. [fetch_data] returns False in exactly two ways.  Either the
    download raised, and the analyzer is unchanged; or it returned an empty
    frame, which is stored although the current price is not updated, and
    then [generate_signals] and [calculate_price_targets] raise IndexError
    instead of reporting missing data. *)
Theorem fetch_data_failure (sqrt : float -> float) (ta : bool)
    (self self' : TradingAnalyzer) (history : result (list Bar)) :
  fetch_data self history = (self', false) ->
  (exists e : exn, history = Raise e /\ self' = self) \/
  (history = Return [] /\
   data self' = Some [] /\
   current_price self' = current_price self /\
   generate_signals sqrt ta self' = Raise IndexError /\
   forall (action : string) (buy_price : option float),
     calculate_price_targets sqrt ta self' action buy_price = Raise IndexError).
Proof.
  unfold fetch_data. destruct history as [df | e].
  - destruct (rev df) as [| b rest] eqn:E; [| discriminate].
    intro H. injection H as <-. right.
    assert (df = []) as -> by (now destruct df; [| apply app_eq_nil in E as [_ ?]]).
    repeat split.
    + unfold generate_signals, calculate_technical_indicators. simpl.
      destruct ta; reflexivity.
    + intros action buy_price.
      unfold calculate_price_targets, calculate_technical_indicators. simpl.
      destruct ta; reflexivity.
  - intro H. injection H as <-. left. exists e. split; reflexivity.
Qed.

Lemma fetch_data_failure_witness :
  generate_signals sqrt_12 true
    (fst (fetch_data (__init__ "AAPL") (Return []))) = Raise IndexError.
Proof.
  destruct (fetch_data_failure sqrt_12 true (__init__ "AAPL")
              (fst (fetch_data (__init__ "AAPL") (Return []))) (Return []))
    as [(e & He & _) | (_ & _ & _ & Hg & _)].
  - reflexivity.
  - discriminate He.
  - exact Hg.
Defined.

(** ** Shape of the indicator columns *)

Lemma rolling_length (w : nat) (agg : list float -> float) (s : Pd.Series) :
  length (Pd.rolling w agg s) = length s.
Proof. unfold Pd.rolling. now rewrite length_map, length_seq. Qed.

Lemma rolling_nth (w : nat) (agg : list float -> float) (s : Pd.Series) (i : nat) :
  i < length s ->
  nth_error (Pd.rolling w agg s) i
  = Some match Pd.window w i s with
         | Some xs => if existsb Np.isnan xs then NaN else agg xs
         | None => NaN
         end.
Proof.
  intro H. unfold Pd.rolling. rewrite nth_error_map, nth_error_seq.
  apply Nat.ltb_lt in H. rewrite H. reflexivity.
Qed.

Lemma diff_from_length (prev : float) (s : Pd.Series) :
  length (Pd.diff_from prev s) = length s.
Proof.
  revert prev. induction s as [| x s IH]; intro prev; simpl; [| rewrite IH];
    reflexivity.
Qed.

Lemma diff_length (s : Pd.Series) : length (Pd.diff s) = length s.
Proof. destruct s; simpl; [| rewrite diff_from_length]; reflexivity. Qed.

Lemma where_length (s : Pd.Series) (cond : float -> bool) (other : float) :
  length (Pd.where_ s cond other) = length s.
Proof. apply length_map. Qed.

Ltac column_length :=
  unfold Ta.bollinger_hband, Ta.bollinger_lband, Ta.bollinger_mavg,
    Ta.bollinger_mstd, Ta.macd_diff, Ta.macd_signal, Ta.macd, Ta.rsi,
    Ta.emaup, Ta.emadn, Ta.ema_indicator, Ta.sma_indicator, Ta._ema, Ta._sma,
    avg_gain, avg_loss, rsi_of_rs, Pd.add, Pd.sub, Pd.div, Pd.scale, Pd.neg;
  cbv zeta;
  repeat (rewrite ?zip_with_length, ?rolling_length, ?ewm_mean_length,
            ?length_map, ?where_length, ?diff_length);
  try reflexivity.

(** X9. Every indicator column of the frame has one entry per bar of the
    price history, on the ta path as on the fallback path, so the value
    [iloc[-1]] reads in a column belongs to the latest bar. *)
Theorem columns_aligned (sqrt : float -> float) (ta : bool)
    (self : TradingAnalyzer) (df : DataFrame.t) :
  calculate_technical_indicators sqrt ta self = Some df ->
  data self = Some (DataFrame.bars df) /\
  Forall (fun column => length column = length (DataFrame.bars df))
    [DataFrame.SMA_20 df; DataFrame.SMA_50 df; DataFrame.EMA_12 df;
     DataFrame.EMA_26 df; DataFrame.RSI df; DataFrame.MACD df;
     DataFrame.MACD_signal df; DataFrame.BB_upper df; DataFrame.BB_lower df;
     DataFrame.BB_middle df; DataFrame.Support df; DataFrame.Resistance df].
Proof.
  unfold calculate_technical_indicators.
  destruct (data self) as [bars |]; [| discriminate].
  destruct ta; intro H; injection H as <-; simpl;
    (split; [reflexivity |]);
    repeat (apply Forall_cons; [column_length |]); apply Forall_nil.
Qed.

Lemma columns_aligned_witness :
  length (DataFrame.MACD (run_frame true ramp_35)) = 35
  /\ length (DataFrame.RSI (run_frame false buy_scenario)) = 20.
Proof.
  split.
  - destruct (columns_aligned sqrt_12 true ramp_35 (run_frame true ramp_35)
                eq_refl) as [_ H].
    do 5 apply Forall_inv_tail in H. apply Forall_inv in H. cbv beta in H.
    rewrite H. vm_compute. reflexivity.
  - destruct (columns_aligned sqrt_12 false buy_scenario
                (run_frame false buy_scenario) eq_refl) as [_ H].
    do 4 apply Forall_inv_tail in H. apply Forall_inv in H. cbv beta in H.
    rewrite H. vm_compute. reflexivity.
Defined.

(** ** Histories shorter than the 20-bar windows *)

Lemma window_short (w i : nat) (s : Pd.Series) :
  i < length s -> length s < w -> Pd.window w i s = None.
Proof.
  intros Hi Hw. unfold Pd.window.
  destruct (Nat.leb_spec w (i + 1)); [lia | reflexivity].
Qed.

Lemma rolling_short (w : nat) (agg : list float -> float) (s : Pd.Series) :
  length s < w -> forall x, In x (Pd.rolling w agg s) -> x = NaN.
Proof.
  intros Hw x Hx. unfold Pd.rolling in Hx.
  apply in_map_iff in Hx as (i & <- & Hi). apply in_seq in Hi.
  rewrite window_short; [reflexivity | lia | exact Hw].
Qed.

Lemma last_all_nan (l : Pd.Series) :
  (forall x, In x l -> x = NaN) -> last l NaN = NaN.
Proof.
  induction l as [| x l IH]; intro H; [reflexivity |].
  destruct l as [| y l]; [apply H; now left |].
  change (last (x :: y :: l) NaN) with (last (y :: l) NaN).
  apply IH. intros z Hz. apply H. now right.
Qed.

Lemma iloc_last_levels (df : DataFrame.t) (latest : Row.t) :
  iloc_last df = Return latest ->
  Row.Support latest = Pd.iloc_last (DataFrame.Support df) /\
  Row.Resistance latest = Pd.iloc_last (DataFrame.Resistance df).
Proof.
  unfold iloc_last. destruct (rev (DataFrame.bars df)); [discriminate |].
  intro H. injection H as <-. split; reflexivity.
Qed.

Lemma levels_of_data (sqrt : float -> float) (ta : bool)
    (self : TradingAnalyzer) (df : DataFrame.t) :
  calculate_technical_indicators sqrt ta self = Some df ->
  DataFrame.Support df = Pd.rolling 20 Pd.minimum (map Low (DataFrame.bars df)) /\
  DataFrame.Resistance df
  = Pd.rolling 20 Pd.maximum (map High (DataFrame.bars df)).
Proof.
  unfold calculate_technical_indicators.
  destruct (data self); [| discriminate].
  destruct ta; intro H; injection H as <-; split; reflexivity.
Qed.

(** X10. With fewer than twenty bars of history the support and resistance
    levels of the latest bar are undefined, and the calculator still returns
    a plan: every figure of the BUY plan is nan, and so is every figure of
    the SELL plan except the current price. *)
Theorem short_history_plan_is_nan (sqrt : float -> float) (ta : bool)
    (self : TradingAnalyzer) (bars : list Bar) (p : float) :
  data self = Some bars ->
  bars <> [] ->
  length bars < 20 ->
  current_price self = Some p ->
  (forall buy_price : option float,
      calculate_price_targets sqrt ta self "BUY" buy_price
      = Return (Some [("entry_price", NaN); ("stop_loss", NaN);
                      ("take_profit", NaN); ("risk_reward", NaN)])) /\
  (forall basis : Qc,
      basis <> 0%Qc ->
      calculate_price_targets sqrt ta self "SELL" (Some (Fin basis))
      = Return (Some [("sell_price", NaN); ("profit_loss", NaN);
                      ("profit_percentage", NaN); ("current_price", p)])).
Proof.
  intros Hd Hne Hlen Hp.
  destruct (indicators_of_data sqrt ta self bars Hd) as (df & Hdf & Hb).
  destruct (iloc_last_nonempty df) as (latest & Hl); [now rewrite Hb |].
  destruct (iloc_last_levels df latest Hl) as [HS HR].
  destruct (levels_of_data sqrt ta self df Hdf) as [ES ER].
  assert (Row.Support latest = NaN) as HSn.
  { rewrite HS, ES. apply last_all_nan, rolling_short.
    now rewrite length_map, Hb. }
  assert (Row.Resistance latest = NaN) as HRn.
  { rewrite HR, ER. apply last_all_nan, rolling_short.
    now rewrite length_map, Hb. }
  split.
  - intro buy_price.
    rewrite (buy_targets_eq sqrt ta self df latest p buy_price Hdf Hl Hp).
    cbv zeta. rewrite HSn. reflexivity.
  - intros basis Hbasis.
    rewrite (sell_targets_eq sqrt ta self df latest p basis Hdf Hl Hp Hbasis).
    cbv zeta. rewrite HRn. unfold Py.min.
    change (NaN * Np.lit 102 100)%np with NaN. rewrite ltb_nan_r. reflexivity.
Qed.

Lemma short_history_plan_is_nan_witness :
  calculate_price_targets sqrt_12 true (analyzer_of (ramp 10)) "BUY" None
  = Return (Some [("entry_price", NaN); ("stop_loss", NaN);
                  ("take_profit", NaN); ("risk_reward", NaN)]).
Proof.
  apply (short_history_plan_is_nan sqrt_12 true (analyzer_of (ramp 10))
           (ramp 10) (Np.of_Z 10)).
  - reflexivity.
  - vm_compute. discriminate.
  - vm_compute. lia.
  - reflexivity.
Defined.

(** ** The SELL plan and the recommendation drawn from it *)

Lemma py_min_Fin (a b : Qc) :
  exists e, Py.min (Fin a) (Fin b) = Fin e
            /\ (e <= a)%Qc /\ (e <= b)%Qc /\ (e = a \/ e = b).
Proof.
  unfold Py.min, Np.ltb.
  destruct (Np.Qcltb b a) eqn:E; qc_props.
  - exists b. repeat split; auto using Qclt_le_weak, Qcle_refl.
  - exists a. repeat split; auto using Qcle_refl.
Qed.

Lemma profit_percentage_Fin (e b : Qc) :
  b <> 0%Qc ->
  ((Fin e - Fin b) / Fin b * Np.of_Z 100)%np
  = Fin ((e + - b) / b * Q2Qc (inject_Z 100))%Qc.
Proof.
  intro H. unfold Np.sub, Np.of_Z. simpl.
  destruct (Np.Qceqb b 0) eqn:E; [qc_props; contradiction | reflexivity].
Qed.

(** X11. For a real resistance level, a real current price and a non-zero
    basis price the SELL plan holds numbers: the sell price is the smaller
    of resistance * 1.02 and current * 1.05, so it never exceeds the current
    price by more than 5%, profit_loss is sell price minus basis and
    profit_percentage is (sell price - basis) / basis * 100. *)
Theorem sell_plan_bounds (sqrt : float -> float) (ta : bool)
    (self : TradingAnalyzer) (df : DataFrame.t) (latest : Row.t)
    (r c basis : Qc) :
  calculate_technical_indicators sqrt ta self = Some df ->
  iloc_last df = Return latest ->
  current_price self = Some (Fin c) ->
  Row.Resistance latest = Fin r ->
  basis <> 0%Qc ->
  exists e : Qc,
    calculate_price_targets sqrt ta self "SELL" (Some (Fin basis))
    = Return (Some [("sell_price", Fin e);
                    ("profit_loss", Fin (e + - basis)%Qc);
                    ("profit_percentage",
                     Fin ((e + - basis) / basis * Q2Qc (inject_Z 100))%Qc);
                    ("current_price", Fin c)]) /\
    (e <= r * k102)%Qc /\ (e <= c * k105)%Qc /\
    (e = (r * k102)%Qc \/ e = (c * k105)%Qc).
Proof.
  intros Hdf Hl Hp Hr Hb.
  rewrite (sell_targets_eq sqrt ta self df latest (Fin c) basis Hdf Hl Hp Hb).
  cbv zeta. rewrite Hr.
  destruct (py_min_Fin (r * k102) (c * k105)) as (e & He & Hbounds).
  exists e. split; [| exact Hbounds].
  change (Fin r * Np.lit 102 100)%np with (Fin (r * k102)).
  change (Fin c * Np.lit 105 100)%np with (Fin (c * k105)).
  rewrite He, (profit_percentage_Fin e basis Hb). reflexivity.
Qed.

Lemma sell_plan_bounds_witness :
  exists e : Qc,
    calculate_price_targets sqrt_12 false sell_scenario "SELL"
      (Some (Fin (Q2Qc (inject_Z 100))))
    = Return (Some [("sell_price", Fin e);
                    ("profit_loss", Fin (e + - Q2Qc (inject_Z 100))%Qc);
                    ("profit_percentage",
                     Fin ((e + - Q2Qc (inject_Z 100)) / Q2Qc (inject_Z 100)
                          * Q2Qc (inject_Z 100))%Qc);
                    ("current_price", Fin (Q2Qc (inject_Z 115)))]) /\
    (e <= Q2Qc (inject_Z 115) * k105)%Qc.
Proof.
  destruct (sell_plan_bounds sqrt_12 false sell_scenario
              (run_frame false sell_scenario) (run_latest false sell_scenario)
              (Q2Qc (inject_Z 120)) (Q2Qc (inject_Z 115)) (Q2Qc (inject_Z 100)))
    as (e & Hplan & _ & Hc & _).
  - reflexivity.
  - reflexivity.
  - reflexivity.
  - vm_compute. reflexivity.
  - vm_compute. discriminate.
  - exists e. split; assumption.
Defined.





(** ** Columns of real numbers

    A column without nan or infinities is [map Fin qs]; on such columns the
    rolling aggregates are computed on the rationals. *)

Lemma window_map_Fin (w i : nat) (qs : list Qc) :
  Pd.window w i (map Fin qs)
  = if (w <=? i + 1)%nat then Some (map Fin (span w i qs)) else None.
Proof. unfold Pd.window, span. now rewrite skipn_map, firstn_map. Qed.

Lemma span_length (w i : nat) (qs : list Qc) :
  w <= i + 1 -> i < length qs -> length (span w i qs) = w.
Proof.
  intros Hw Hi. unfold span. rewrite length_firstn, length_skipn. lia.
Qed.

Lemma span_latest (w i : nat) (qs : list Qc) :
  0 < w -> w <= i + 1 ->
  nth_error (span w i qs) (w - 1) = nth_error qs i.
Proof.
  intros H0 Hw. unfold span. rewrite nth_error_firstn, nth_error_skipn.
  destruct (Nat.ltb_spec (w - 1) w); [| lia]. f_equal. lia.
Qed.

Lemma span_In (w i : nat) (qs : list Qc) (q : Qc) :
  In q (span w i qs) -> In q qs.
Proof.
  unfold span. intro H. apply In_nth_error in H as (k & Hk).
  rewrite nth_error_firstn, nth_error_skipn in Hk.
  destruct (k <? w)%nat; [| discriminate]. now apply nth_error_In in Hk.
Qed.

Lemma no_nan_map_Fin (qs : list Qc) : existsb Np.isnan (map Fin qs) = false.
Proof. induction qs; simpl; auto. Qed.

Lemma sum_map_Fin (qs : list Qc) (a : Qc) :
  fold_left Np.add (map Fin qs) (Fin a) = Fin (fold_left Qcplus qs a).
Proof.
  revert a. induction qs as [| q qs IH]; intro a; simpl; [| rewrite IH];
    reflexivity.
Qed.

Lemma this_of_nat (n : nat) : (this (Qc_of_nat n) == inject_Z (Z.of_nat n))%Q.
Proof. apply this_Q2Qc. Qed.

Lemma Qc_of_nat_pos (n : nat) : 0 < n -> (0 < Qc_of_nat n)%Qc.
Proof.
  intro H. unfold Qclt. rewrite this_of_nat.
  change (this 0%Qc) with (inject_Z 0). rewrite <- Zlt_Qlt. lia.
Qed.

Lemma Qc_of_nat_nonzero (n : nat) :
  0 < n -> Np.Qceqb (Qc_of_nat n) 0 = false.
Proof.
  intro H. destruct (Np.Qceqb (Qc_of_nat n) 0) eqn:E; [| reflexivity].
  qc_props. apply Qc_of_nat_pos in H. rewrite E in H.
  exfalso. exact (Qclt_not_le _ _ H (Qcle_refl _)).
Qed.

Lemma mean_map_Fin (qs : list Qc) :
  0 < length qs ->
  Pd.mean (map Fin qs) = Fin (Qc_sum qs / Qc_of_nat (length qs))%Qc.
Proof.
  intro H. unfold Pd.mean, Pd.sum.
  change (Np.of_Z 0) with (Fin 0%Qc).
  rewrite sum_map_Fin, length_map.
  change (Np.of_nat (length qs)) with (Fin (Qc_of_nat (length qs))).
  unfold Np.div. rewrite (Qc_of_nat_nonzero _ H). reflexivity.
Qed.

Lemma this_of_nat_S (n : nat) :
  (this (Qc_of_nat (S n)) == this (Qc_of_nat n) + 1)%Q.
Proof.
  rewrite !this_of_nat, Nat2Z.inj_succ. unfold Z.succ.
  rewrite inject_Z_plus. reflexivity.
Qed.

Lemma sum_bounds (qs : list Qc) (lo hi a : Qc) :
  (forall q, In q qs -> (lo <= q /\ q <= hi)%Qc) ->
  (a + Qc_of_nat (length qs) * lo <= fold_left Qcplus qs a
   /\ fold_left Qcplus qs a <= a + Qc_of_nat (length qs) * hi)%Qc.
Proof.
  revert a. induction qs as [| q qs IH]; intros a H.
  - simpl. unfold Qcle. rewrite !this_add, !this_mul.
    change (this (Qc_of_nat 0)) with 0%Q. split; lra.
  - destruct (H q (or_introl eq_refl)) as [Hlo Hhi].
    destruct (IH (a + q)%Qc (fun x Hx => H x (or_intror Hx))) as [L U].
    simpl fold_left. simpl length.
    unfold Qcle in *. rewrite !this_add, !this_mul in *.
    rewrite this_of_nat_S. split; lra.
Qed.

Lemma mean_bounds (qs : list Qc) (lo hi : Qc) :
  0 < length qs ->
  (forall q, In q qs -> (lo <= q /\ q <= hi)%Qc) ->
  (lo <= Qc_sum qs / Qc_of_nat (length qs)
   /\ Qc_sum qs / Qc_of_nat (length qs) <= hi)%Qc.
Proof.
  intros Hn H. destruct (sum_bounds qs lo hi 0%Qc H) as [L U].
  apply Qc_of_nat_pos in Hn. fold (Qc_sum qs) in L, U.
  set (N := Qc_of_nat (length qs)) in *. set (S := Qc_sum qs) in *.
  unfold Qclt, Qcle in *. rewrite this_div. rewrite !this_add, !this_mul in *.
  change (this 0%Qc) with 0%Q in *.
  assert (K : (this S / this N * this N == this S)%Q) by (field; lra).
  set (T := (this S / this N)%Q) in *.
  split; nra.
Qed.

Lemma rolling_mean_Fin (w : nat) (qs : list Qc) (i : nat) :
  0 < w -> i < length qs ->
  nth_error (Pd.rolling w Pd.mean (map Fin qs)) i
  = Some (if (w <=? i + 1)%nat
          then Fin (Qc_sum (span w i qs) / Qc_of_nat w)%Qc
          else NaN).
Proof.
  intros Hw Hi. rewrite rolling_nth by now rewrite length_map.
  rewrite window_map_Fin.
  destruct (Nat.leb_spec w (i + 1)) as [H | H]; [| reflexivity].
  rewrite no_nan_map_Fin, mean_map_Fin; rewrite span_length; auto.
Qed.

Lemma rolling_mean_warm_up (w : nat) (qs : list Qc) :
  0 < w -> warm_up w qs (Pd.rolling w Pd.mean (map Fin qs)).
Proof.
  intros Hw i Hi. rewrite (rolling_mean_Fin w qs i Hw Hi). split; intro H.
  - destruct (Nat.leb_spec w (i + 1)); [lia | reflexivity].
  - destruct (Nat.leb_spec w (i + 1)); [| lia].
    eexists. split; [reflexivity |]. intros lo hi Hb.
    pose proof (mean_bounds (span w i qs) lo hi) as M.
    rewrite (span_length w i qs H Hi) in M. apply M; [exact Hw | exact Hb].
Qed.

(** X13. On a history whose closes are real numbers, SMA_20 is nan on the
    first 19 bars and from the 20th bar on a number lying between the
    smallest and the largest close of its 20-bar window (so it equals the
    close on a flat window); SMA_50 likewise with 50 bars; the Bollinger
    middle band is the SMA_20 column.  This holds on both paths. *)
Theorem sma_warm_up (sqrt : float -> float) (ta : bool)
    (self : TradingAnalyzer) (bars : list Bar) (qs : list Qc) :
  data self = Some bars ->
  map Close bars = map Fin qs ->
  exists df : DataFrame.t,
    calculate_technical_indicators sqrt ta self = Some df /\
    warm_up 20 qs (DataFrame.SMA_20 df) /\
    warm_up 50 qs (DataFrame.SMA_50 df) /\
    DataFrame.BB_middle df = DataFrame.SMA_20 df.
Proof.
  intros Hd Hq. unfold calculate_technical_indicators. rewrite Hd.
  destruct ta; eexists; (split; [reflexivity |]); cbv zeta; simpl;
    unfold Ta.sma_indicator, Ta._sma, Ta.bollinger_mavg; rewrite Hq;
    (split; [apply rolling_mean_warm_up; lia |]);
    (split; [apply rolling_mean_warm_up; lia | reflexivity]).
Qed.

Lemma sma_warm_up_witness :
  nth_error (DataFrame.SMA_20 (run_frame false buy_scenario)) 5 = Some NaN
  /\ exists m : Qc,
       nth_error (DataFrame.SMA_20 (run_frame false buy_scenario)) 19
       = Some (Fin m)
       /\ (Q2Qc (inject_Z 100) <= m /\ m <= Q2Qc (inject_Z 105))%Qc.
Proof.
  destruct (sma_warm_up sqrt_12 false buy_scenario
              (scenario (Np.of_Z 100) (Np.of_Z 105) (Np.of_Z 105))
              (reals (map Close (scenario (Np.of_Z 100) (Np.of_Z 105)
                                          (Np.of_Z 105)))))
    as (df & Hdf & H20 & _).
  - reflexivity.
  - vm_compute. reflexivity.
  - unfold run_frame. rewrite Hdf. split.
    + apply (H20 5); [vm_compute; lia | lia].
    + destruct (H20 19) as [_ H]; [vm_compute; lia |].
      destruct H as (m & Hm & Hb); [lia |].
      exists m. split; [exact Hm |]. apply Hb.
      intros q Hq. vm_compute in Hq.
      repeat (destruct Hq as [<- | Hq]; [split; vm_compute; discriminate |]).
      contradiction.
Defined.

(** ** The fallback RSI stays between 0 and 100 *)

Lemma reals_of (P : Qc -> Prop) (l : Pd.Series) :
  (forall x, In x l -> exists q, x = Fin q /\ P q) ->
  exists qs, l = map Fin qs /\ forall q, In q qs -> P q.
Proof.
  induction l as [| x l IH]; intro H.
  - exists []. split; [reflexivity | intros q []].
  - destruct (H x (or_introl eq_refl)) as (q & -> & Hq).
    destruct IH as (qs & -> & Hqs); [intros y Hy; apply H; now right |].
    exists (q :: qs). split; [reflexivity |].
    intros q' [<- | Hq']; auto.
Qed.

Lemma diff_from_real (p : Qc) (qs : list Qc) (x : float) :
  In x (Pd.diff_from (Fin p) (map Fin qs)) -> exists d, x = Fin d.
Proof.
  revert p. induction qs as [| q qs IH]; intros p H; simpl in H; [contradiction |].
  destruct H as [<- | H]; [eexists; reflexivity | eauto].
Qed.

Lemma diff_real (qs : list Qc) (x : float) :
  In x (Pd.diff (map Fin qs)) -> x = NaN \/ exists d, x = Fin d.
Proof.
  destruct qs as [| q qs]; simpl; [contradiction |].
  intros [<- | H]; [now left | right; eapply diff_from_real; eauto].
Qed.

Lemma Qc_zero_le_zero : (0 <= 0)%Qc.
Proof. apply Qcle_refl. Qed.

Lemma gains_real (qs : list Qc) (x : float) :
  In x (Pd.where_ (Pd.diff (map Fin qs)) (fun d => (d >? Np.of_Z 0)%np)
          (Np.of_Z 0)) ->
  exists g, x = Fin g /\ (0 <= g)%Qc.
Proof.
  unfold Pd.where_. intro H. apply in_map_iff in H as (d & <- & Hd).
  apply diff_real in Hd as [-> | (q & ->)].
  - exists 0%Qc. split; [reflexivity | apply Qc_zero_le_zero].
  - unfold Np.gtb, Np.ltb, Np.of_Z. change (Q2Qc (inject_Z 0)) with 0%Qc.
    destruct (Np.Qcltb 0 q) eqn:E; qc_props.
    + exists q. split; [reflexivity | now apply Qclt_le_weak].
    + exists 0%Qc. split; [reflexivity | apply Qc_zero_le_zero].
Qed.

Lemma losses_real (qs : list Qc) (x : float) :
  In x (Pd.neg (Pd.where_ (Pd.diff (map Fin qs)) (fun d => (d <? Np.of_Z 0)%np)
                  (Np.of_Z 0))) ->
  exists l, x = Fin l /\ (0 <= l)%Qc.
Proof.
  unfold Pd.neg, Pd.where_. rewrite map_map. intro H.
  apply in_map_iff in H as (d & <- & Hd).
  assert (Z : (0 <= - 0)%Qc) by (unfold Qcle; rewrite this_opp; apply Qle_refl).
  apply diff_real in Hd as [-> | (q & ->)].
  - exists (- 0)%Qc. split; [reflexivity | exact Z].
  - unfold Np.ltb, Np.of_Z. change (Q2Qc (inject_Z 0)) with 0%Qc.
    destruct (Np.Qcltb q 0) eqn:E; qc_props.
    + exists (- q)%Qc. split; [reflexivity |].
      unfold Qclt, Qcle in *. rewrite this_opp.
      change (this 0%Qc) with 0%Q in *. lra.
    + exists (- 0)%Qc. split; [reflexivity | exact Z].
Qed.

Lemma sum_lower (qs : list Qc) (lo a : Qc) :
  (forall q, In q qs -> (lo <= q)%Qc) ->
  (a + Qc_of_nat (length qs) * lo <= fold_left Qcplus qs a)%Qc.
Proof.
  revert a. induction qs as [| q qs IH]; intros a H.
  - simpl. unfold Qcle. rewrite !this_add, !this_mul.
    change (this (Qc_of_nat 0)) with 0%Q. lra.
  - pose proof (H q (or_introl eq_refl)) as Hlo.
    pose proof (IH (a + q)%Qc (fun x Hx => H x (or_intror Hx))) as L.
    simpl fold_left. simpl length.
    unfold Qcle in *. rewrite !this_add, !this_mul in *.
    rewrite this_of_nat_S. lra.
Qed.

Lemma mean_nonneg (qs : list Qc) :
  0 < length qs ->
  (forall q, In q qs -> (0 <= q)%Qc) ->
  (0 <= Qc_sum qs / Qc_of_nat (length qs))%Qc.
Proof.
  intros Hn H. pose proof (sum_lower qs 0%Qc 0%Qc H) as L.
  apply Qc_of_nat_pos in Hn. fold (Qc_sum qs) in L.
  set (N := Qc_of_nat (length qs)) in *. set (S := Qc_sum qs) in *.
  unfold Qclt, Qcle in *. rewrite this_div. rewrite !this_add, !this_mul in *.
  change (this 0%Qc) with 0%Q in *.
  assert (K : (this S / this N * this N == this S)%Q) by (field; lra).
  set (T := (this S / this N)%Q) in *. nra.
Qed.

(** A 14-bar mean of non-negative numbers is nan or a non-negative number. *)
Lemma rolling_mean_nonneg (l : Pd.Series) (i : nat) (x : float) :
  (forall y, In y l -> exists q, y = Fin q /\ (0 <= q)%Qc) ->
  nth_error (Pd.rolling 14 Pd.mean l) i = Some x ->
  x = NaN \/ exists q, x = Fin q /\ (0 <= q)%Qc.
Proof.
  intros H Hx. destruct (reals_of _ l H) as (qs & -> & Hqs).
  assert (Hi : i < length qs).
  { rewrite <- (length_map Fin), <- (rolling_length 14 Pd.mean).
    apply nth_error_Some. congruence. }
  rewrite (rolling_mean_Fin 14 qs i ltac:(lia) Hi) in Hx.
  destruct (Nat.leb_spec 14 (i + 1)) as [Hw | Hw]; injection Hx as <-;
    [right | now left].
  eexists. split; [reflexivity |].
  pose proof (mean_nonneg (span 14 i qs)) as M.
  rewrite (span_length 14 i qs Hw Hi) in M. apply M; [lia |].
  intros q Hq. apply Hqs. eapply span_In; eauto.
Qed.

Lemma rsi_value_bounded (g l : Qc) :
  (0 <= g)%Qc -> (0 <= l)%Qc ->
  let x := (Np.of_Z 100 - Np.of_Z 100 / (Np.of_Z 1 + Fin g / Fin l))%np in
  x = NaN \/
  exists r, x = Fin r /\ (0 <= r /\ r <= Q2Qc (inject_Z 100))%Qc.
Proof.
  intros Hg Hl. cbv zeta.
  destruct (Np.Qceqb l 0) eqn:El.
  - qc_props. subst l. destruct (Np.Qceqb g 0) eqn:Eg.
    + qc_props. subst g. left. reflexivity.
    + right. exists (Q2Qc (inject_Z 100)). split.
      * apply rsi_all_gain. apply Qcnot_le_lt. intro C.
        assert (g = 0%Qc) by (apply Qcle_antisym; assumption).
        subst g. rewrite Qceqb_refl in Eg. discriminate.
      * split; [discriminate | apply Qcle_refl].
  - right. assert (Lpos : (0 < l)%Qc).
    { apply Qcnot_le_lt. intro C.
      assert (l = 0%Qc) by (apply Qcle_antisym; assumption).
      subst l. rewrite Qceqb_refl in El. discriminate. }
    assert (Ht : (0 <= g / l)%Qc).
    { unfold Qcle, Qclt in *. rewrite this_div.
      change (this 0%Qc) with 0%Q in *.
      apply Qmult_le_0_compat; [assumption |].
      apply Qinv_le_0_compat. assumption. }
    remember (g / l)%Qc as t eqn:Et.
    assert (Hu : (0 < Q2Qc (inject_Z 1) + t)%Qc).
    { unfold Qcle, Qclt in *. rewrite this_add, !this_Q2Qc.
      change (this 0%Qc) with 0%Q in *. unfold inject_Z. lra. }
    remember (Q2Qc (inject_Z 1) + t)%Qc as u eqn:Eu'.
    assert (Eu : Np.Qceqb u 0 = false).
    { destruct (Np.Qceqb u 0) eqn:E; [| reflexivity]. qc_props.
      rewrite E in Hu. exfalso. exact (Qclt_not_le _ _ Hu (Qcle_refl _)). }
    exists (Q2Qc (inject_Z 100) + - (Q2Qc (inject_Z 100) / u))%Qc. split.
    + unfold Np.div at 2. rewrite El, <- Et.
      unfold Np.of_Z, Np.add. rewrite <- Eu'. unfold Np.div. rewrite Eu.
      reflexivity.
    + assert (Hu1 : (1 <= this u)%Q).
      { rewrite Eu'. rewrite this_add, !this_Q2Qc. unfold Qcle in Ht.
        change (this 0%Qc) with 0%Q in Ht. unfold inject_Z. lra. }
      clear Eu' Et Eu Hu Ht.
      unfold Qcle. rewrite !this_add, !this_opp, !this_div, !this_Q2Qc.
      change (this 0%Qc) with 0%Q.
      assert (K : (inject_Z 100 / this u * this u == inject_Z 100)%Q)
        by (field; lra).
      set (V := (inject_Z 100 / this u)%Q) in *. unfold inject_Z in *.
      split; nra.
Qed.

Lemma nth_error_zip_with_inv (f : float -> float -> float) (a b : Pd.Series)
    (i : nat) (z : float) :
  nth_error (Pd.zip_with f a b) i = Some z ->
  exists x y, nth_error a i = Some x /\ nth_error b i = Some y /\ z = f x y.
Proof.
  revert b i. induction a as [| u a IH]; intros [| v b] [| i] H;
    simpl in *; try discriminate.
  - injection H as <-. eauto.
  - now apply IH.
Qed.

(** X14. On a history whose closes are real numbers, every entry of the
    fallback RSI column is either nan or a number between 0 and 100. *)
Theorem manual_rsi_bounded (sqrt : float -> float) (self : TradingAnalyzer)
    (bars : list Bar) (qs : list Qc) :
  data self = Some bars ->
  map Close bars = map Fin qs ->
  exists df : DataFrame.t,
    calculate_technical_indicators sqrt false self = Some df /\
    forall (i : nat) (x : float),
      nth_error (DataFrame.RSI df) i = Some x ->
      x = NaN \/
      exists r : Qc, x = Fin r /\ (0 <= r /\ r <= Q2Qc (inject_Z 100))%Qc.
Proof.
  intros Hd Hq. unfold calculate_technical_indicators. rewrite Hd.
  eexists. split; [reflexivity |]. cbv zeta. simpl DataFrame.RSI.
  rewrite Hq. intros i x Hx. unfold rsi_of_rs in Hx.
  rewrite nth_error_map in Hx.
  destruct (nth_error (Pd.div (avg_gain (Pd.diff (map Fin qs)))
                              (avg_loss (Pd.diff (map Fin qs)))) i)
    as [rs |] eqn:Ers; [| discriminate].
  injection Hx as <-.
  apply nth_error_zip_with_inv in Ers as (g & l & Hg & Hl & ->).
  apply rolling_mean_nonneg in Hg; [| apply gains_real].
  apply rolling_mean_nonneg in Hl; [| apply losses_real].
  destruct Hg as [-> | (g' & -> & Hg')]; [now left |].
  destruct Hl as [-> | (l' & -> & Hl')]; [now left |].
  apply rsi_value_bounded; assumption.
Qed.

Lemma manual_rsi_bounded_witness :
  exists r : Qc,
    nth_error (DataFrame.RSI (run_frame false buy_scenario)) 19 = Some (Fin r)
    /\ (0 <= r /\ r <= Q2Qc (inject_Z 100))%Qc.
Proof.
  destruct (manual_rsi_bounded sqrt_12 buy_scenario
              (scenario (Np.of_Z 100) (Np.of_Z 105) (Np.of_Z 105))
              (reals (map Close (scenario (Np.of_Z 100) (Np.of_Z 105)
                                          (Np.of_Z 105)))))
    as (df & Hdf & H).
  - reflexivity.
  - vm_compute. reflexivity.
  - assert (Edf : run_frame false buy_scenario = df)
      by (unfold run_frame; rewrite Hdf; reflexivity).
    assert (E : exists x,
               nth_error (DataFrame.RSI (run_frame false buy_scenario)) 19
               = Some x /\ Np.isnan x = false)
      by (eexists; split; vm_compute; reflexivity).
    destruct E as (x & Ex & Hn). rewrite Edf in *.
    destruct (H 19 x Ex) as [-> | (r & -> & Hb)]; [discriminate |].
    exists r. split; assumption.
Defined.

(** ** Support and resistance *)

Lemma py_min_map_Fin (l : list Qc) (a : Qc) :
  fold_left Py.min (map Fin l) (Fin a) = Fin (fold_left Qc_min l a).
Proof.
  revert a. induction l as [| q l IH]; intro a; simpl; [reflexivity |].
  rewrite <- IH. f_equal. unfold Py.min, Qc_min, Np.ltb.
  now destruct (Np.Qcltb q a).
Qed.

Lemma py_max_map_Fin (l : list Qc) (a : Qc) :
  fold_left Py.max (map Fin l) (Fin a) = Fin (fold_left Qc_max l a).
Proof.
  revert a. induction l as [| q l IH]; intro a; simpl; [reflexivity |].
  rewrite <- IH. f_equal. unfold Py.max, Qc_max, Np.gtb, Np.ltb.
  now destruct (Np.Qcltb a q).
Qed.

Lemma fold_min_spec (l : list Qc) (a : Qc) :
  (fold_left Qc_min l a <= a)%Qc /\
  (forall q, In q l -> (fold_left Qc_min l a <= q)%Qc) /\
  In (fold_left Qc_min l a) (a :: l).
Proof.
  revert a. induction l as [| x l IH]; intro a; simpl fold_left.
  - split; [apply Qcle_refl |]. split; [intros q [] | now left].
  - destruct (IH (Qc_min a x)) as (Ha & Hl & Hin).
    assert (Hm : (Qc_min a x <= a /\ Qc_min a x <= x)%Qc).
    { unfold Qc_min. destruct (Np.Qcltb x a) eqn:E; qc_props;
        split; auto using Qcle_refl, Qclt_le_weak. }
    destruct Hm as [Hma Hmx]. split; [eapply Qcle_trans; eauto |]. split.
    + intros q [<- | Hq]; [eapply Qcle_trans; eauto | auto].
    + destruct Hin as [Hin | Hin]; [| right; now right].
      rewrite <- Hin. unfold Qc_min.
      destruct (Np.Qcltb x a); [right; now left | now left].
Qed.

Lemma fold_max_spec (l : list Qc) (a : Qc) :
  (a <= fold_left Qc_max l a)%Qc /\
  (forall q, In q l -> (q <= fold_left Qc_max l a)%Qc) /\
  In (fold_left Qc_max l a) (a :: l).
Proof.
  revert a. induction l as [| x l IH]; intro a; simpl fold_left.
  - split; [apply Qcle_refl |]. split; [intros q [] | now left].
  - destruct (IH (Qc_max a x)) as (Ha & Hl & Hin).
    assert (Hm : (a <= Qc_max a x /\ x <= Qc_max a x)%Qc).
    { unfold Qc_max. destruct (Np.Qcltb a x) eqn:E; qc_props;
        split; auto using Qcle_refl, Qclt_le_weak. }
    destruct Hm as [Hma Hmx]. split; [eapply Qcle_trans; eauto |]. split.
    + intros q [<- | Hq]; [eapply Qcle_trans; eauto | auto].
    + destruct Hin as [Hin | Hin]; [| right; now right].
      rewrite <- Hin. unfold Qc_max.
      destruct (Np.Qcltb a x); [right; now left | now left].
Qed.

Lemma minimum_map_Fin (l : list Qc) :
  0 < length l ->
  exists m, Pd.minimum (map Fin l) = Fin m
            /\ In m l /\ forall q, In q l -> (m <= q)%Qc.
Proof.
  destruct l as [| a l]; simpl length; [lia |]. intros _.
  simpl. rewrite py_min_map_Fin.
  destruct (fold_min_spec l a) as (Ha & Hl & Hin).
  eexists. split; [reflexivity |]. split; [exact Hin |].
  intros q [<- | Hq]; auto.
Qed.

Lemma maximum_map_Fin (l : list Qc) :
  0 < length l ->
  exists m, Pd.maximum (map Fin l) = Fin m
            /\ In m l /\ forall q, In q l -> (q <= m)%Qc.
Proof.
  destruct l as [| a l]; simpl length; [lia |]. intros _.
  simpl. rewrite py_max_map_Fin.
  destruct (fold_max_spec l a) as (Ha & Hl & Hin).
  eexists. split; [reflexivity |]. split; [exact Hin |].
  intros q [<- | Hq]; auto.
Qed.

Lemma rolling_agg_Fin (agg : list float -> float) (qs : list Qc) (i : nat) :
  20 <= i + 1 -> i < length qs ->
  nth_error (Pd.rolling 20 agg (map Fin qs)) i
  = Some (agg (map Fin (span 20 i qs))).
Proof.
  intros Hw Hi. rewrite rolling_nth by now rewrite length_map.
  rewrite window_map_Fin.
  destruct (Nat.leb_spec 20 (i + 1)); [| lia].
  now rewrite no_nan_map_Fin.
Qed.

(** X15. On a history whose lows and highs are real numbers, from the 20th
    bar on the Support of a bar is the smallest low of its 20-bar window
    and the Resistance the largest high: Support is one of those lows and
    never above the low of the bar itself, Resistance is one of those highs
    and never below the high of the bar itself. *)
Theorem support_resistance_levels (sqrt : float -> float) (ta : bool)
    (self : TradingAnalyzer) (bars : list Bar) (lows highs : list Qc) :
  data self = Some bars ->
  map Low bars = map Fin lows ->
  map High bars = map Fin highs ->
  exists df : DataFrame.t,
    calculate_technical_indicators sqrt ta self = Some df /\
    forall i : nat,
      19 <= i -> i < length bars ->
      exists s r : Qc,
        nth_error (DataFrame.Support df) i = Some (Fin s) /\
        nth_error (DataFrame.Resistance df) i = Some (Fin r) /\
        In s (span 20 i lows) /\
        (forall q, In q (span 20 i lows) -> (s <= q)%Qc) /\
        In r (span 20 i highs) /\
        (forall q, In q (span 20 i highs) -> (q <= r)%Qc) /\
        (forall low, nth_error lows i = Some low -> (s <= low)%Qc) /\
        (forall high, nth_error highs i = Some high -> (high <= r)%Qc).
Proof.
  intros Hd Hlo Hhi.
  destruct (indicators_of_data sqrt ta self bars Hd) as (df & Hdf & Hb).
  exists df. split; [exact Hdf |].
  destruct (levels_of_data sqrt ta self df Hdf) as [ES ER].
  rewrite Hb, Hlo in ES. rewrite Hb, Hhi in ER.
  intros i Hi Hn.
  assert (Hnl : i < length lows).
  { rewrite <- (length_map Fin), <- Hlo, length_map. exact Hn. }
  assert (Hnh : i < length highs).
  { rewrite <- (length_map Fin), <- Hhi, length_map. exact Hn. }
  destruct (minimum_map_Fin (span 20 i lows)) as (s & Hs & Hsin & Hsmin).
  { rewrite span_length; lia. }
  destruct (maximum_map_Fin (span 20 i highs)) as (r & Hr & Hrin & Hrmax).
  { rewrite span_length; lia. }
  exists s, r.
  split; [rewrite ES, rolling_agg_Fin, Hs by lia; reflexivity |].
  split; [rewrite ER, rolling_agg_Fin, Hr by lia; reflexivity |].
  repeat (split; [assumption |]). split.
  - intros low Hlow. apply Hsmin.
    rewrite <- (span_latest 20 i lows) in Hlow by lia.
    now apply nth_error_In in Hlow.
  - intros high Hhigh. apply Hrmax.
    rewrite <- (span_latest 20 i highs) in Hhigh by lia.
    now apply nth_error_In in Hhigh.
Qed.

Lemma support_resistance_levels_witness :
  exists s r : Qc,
    nth_error (DataFrame.Support (run_frame false sell_scenario)) 19
    = Some (Fin s) /\
    nth_error (DataFrame.Resistance (run_frame false sell_scenario)) 19
    = Some (Fin r) /\
    (s <= Q2Qc (inject_Z 100))%Qc /\ (Q2Qc (inject_Z 120) <= r)%Qc.
Proof.
  destruct (support_resistance_levels sqrt_12 false sell_scenario
              (scenario (Np.of_Z 100) (Np.of_Z 120) (Np.of_Z 115))
              (reals (map Low (scenario (Np.of_Z 100) (Np.of_Z 120)
                                        (Np.of_Z 115))))
              (reals (map High (scenario (Np.of_Z 100) (Np.of_Z 120)
                                         (Np.of_Z 115)))))
    as (df & Hdf & H).
  - reflexivity.
  - vm_compute. reflexivity.
  - vm_compute. reflexivity.
  - destruct (H 19) as (s & r & Hs & Hr & _ & _ & _ & _ & Hlow & Hhigh).
    + lia.
    + vm_compute. lia.
    + exists s, r. unfold run_frame. rewrite Hdf.
      split; [exact Hs |]. split; [exact Hr |]. split.
      * apply Hlow. vm_compute. reflexivity.
      * apply Hhigh. vm_compute. reflexivity.
Defined.

(** ** The Daily Change metric of main *)

(** X16. The Daily Change metric raises IndexError exactly when the frame
    has fewer than two bars, and otherwise is the last close minus the one
    before, with that change over the previous close times 100.  So a
    one-bar history passes [fetch_data] and [generate_signals] and then
    fails at this metric. *)
Theorem daily_change_needs_two_bars (sqrt : float -> float) (ta : bool)
    (df : DataFrame.t) :
  (daily_change df = Raise IndexError <-> length (DataFrame.bars df) < 2) /\
  (forall (front : list Bar) (a b : Bar),
      DataFrame.bars df = front ++ [a; b] ->
      daily_change df
      = Return ((Close b - Close a)%np,
                ((Close b - Close a) / Close a * Np.of_Z 100)%np)) /\
  (forall (self : TradingAnalyzer) (b : Bar),
      fetch_data self (Return [b])
      = ({| symbol := symbol self; data := Some [b];
            current_price := Some (Close b) |}, true) /\
      exists (signals : list Signal) (frame : DataFrame.t),
        generate_signals sqrt ta (fst (fetch_data self (Return [b])))
        = Return (Some signals, Some (overall_signal signals), inl frame) /\
        daily_change frame = Raise IndexError).
Proof.
  split; [| split].
  - unfold daily_change.
    rewrite <- (length_rev (DataFrame.bars df)), <- map_rev.
    destruct (rev (DataFrame.bars df)) as [| b [| a rest]]; simpl;
      split; intro H; try reflexivity; try discriminate; lia.
  - intros front a b H. unfold daily_change. rewrite H, map_app, rev_app_distr.
    reflexivity.
  - intros self b. split; [reflexivity |]. simpl fst.
    set (self' := {| symbol := symbol self; data := Some [b];
                     current_price := Some (Close b) |}).
    destruct (indicators_of_data sqrt ta self' [b] eq_refl) as (frame & Hf & Hb).
    destruct (iloc_last_nonempty frame) as (latest & Hl);
      [rewrite Hb; discriminate |].
    exists (latest_signals latest), frame. split.
    + unfold generate_signals. rewrite Hf, Hl. reflexivity.
    + unfold daily_change. rewrite Hb. reflexivity.
Qed.

(** ** A flat price history on the fallback path *)

Lemma flat_closes (bars : list Bar) (c : Qc) :
  Forall (fun b => Close b = Fin c) bars ->
  map Close bars = repeat (Fin c) (length bars).
Proof.
  induction 1 as [| b bars Hb _ IH]; simpl; [| rewrite Hb, IH]; reflexivity.
Qed.

Lemma ewm_loop_flat (alpha : float) (adjust : bool) (st : Pd.ewm_state)
    (c : Qc) (n : nat) :
  Pd.weighted st = Fin c ->
  Pd.ewm_loop alpha adjust 0 st (repeat (Fin c) n) = repeat (Fin c) n.
Proof.
  revert st. induction n as [| n IH]; intros st Hst; simpl; [reflexivity |].
  assert (Hw : Pd.weighted (Pd.ewm_step alpha adjust st (Fin c)) = Fin c).
  { unfold Pd.ewm_step. rewrite Hst. simpl. now rewrite Qceqb_refl. }
  rewrite (IH _ Hw). unfold Pd.ewm_out. simpl. now rewrite Hw.
Qed.

Lemma ewm_mean_flat (alpha : float) (adjust : bool) (c : Qc) (n : nat) :
  Pd.ewm_mean alpha adjust 0 (repeat (Fin c) n) = repeat (Fin c) n.
Proof.
  destruct n as [| n]; simpl; [reflexivity |].
  now rewrite ewm_loop_flat.
Qed.

Lemma zip_sub_flat (c : Qc) (n : nat) :
  Pd.sub (repeat (Fin c) n) (repeat (Fin c) n) = repeat (Fin 0%Qc) n.
Proof.
  induction n as [| n IH]; simpl; [reflexivity |].
  unfold Pd.sub in *. simpl. rewrite IH. do 2 f_equal. apply Qcplus_opp_r.
Qed.

(** X17. On a history whose closes all equal one real price, the fallback
    EMA_12 and EMA_26 columns equal that price at every bar, and the MACD
    and MACD_signal columns are 0 at every bar, whatever the length of the
    history. *)
Theorem flat_history_macd (sqrt : float -> float) (self : TradingAnalyzer)
    (bars : list Bar) (c : Qc) :
  data self = Some bars ->
  Forall (fun b => Close b = Fin c) bars ->
  exists df : DataFrame.t,
    calculate_technical_indicators sqrt false self = Some df /\
    DataFrame.EMA_12 df = repeat (Fin c) (length bars) /\
    DataFrame.EMA_26 df = repeat (Fin c) (length bars) /\
    DataFrame.MACD df = repeat (Fin 0%Qc) (length bars) /\
    DataFrame.MACD_signal df = repeat (Fin 0%Qc) (length bars).
Proof.
  intros Hd Hflat. unfold calculate_technical_indicators. rewrite Hd.
  eexists. split; [reflexivity |]. cbv zeta. simpl.
  rewrite (flat_closes bars c Hflat), !ewm_mean_flat, zip_sub_flat,
    ewm_mean_flat.
  repeat split; reflexivity.
Qed.

Lemma flat_history_macd_witness :
  DataFrame.MACD (run_frame false flat_history) = repeat (Fin 0%Qc) 20.
Proof.
  destruct (flat_history_macd sqrt_12 flat_history
              (map (fun _ => flat_bar (Np.of_Z 100)) (seq 0 20))
              (Q2Qc (inject_Z 100)) eq_refl)
    as (df & Hdf & _ & _ & Hmacd & _).
  - repeat constructor.
  - unfold run_frame. rewrite Hdf. exact Hmacd.
Defined.

Lemma last_In_or_default (l : Pd.Series) :
  last l NaN = NaN \/ In (last l NaN) l.
Proof.
  induction l as [| x l IH]; [now left |].
  destruct l as [| y l]; [right; now left |].
  change (last (x :: y :: l) NaN) with (last (y :: l) NaN).
  destruct IH as [IH | IH]; [now left | right; now right].
Qed.

Lemma span_flat (w i n : nat) (c : Qc) :
  w <= i + 1 -> i < n -> span w i (repeat c n) = repeat c w.
Proof.
  intros Hw Hi.
  rewrite <- (span_length w i (repeat c n)) at 2
    by (auto; now rewrite repeat_length).
  apply Forall_eq_repeat, Forall_forall. intros q Hq.
  apply span_In in Hq. symmetry. eapply repeat_spec; eauto.
Qed.

Lemma mean_flat (w : nat) (c : Qc) :
  0 < w -> Pd.mean (repeat (Fin c) w) = Fin c.
Proof.
  intro Hw. rewrite <- map_repeat, mean_map_Fin by now rewrite repeat_length.
  f_equal.
  destruct (mean_bounds (repeat c w) c c) as [L U].
  - now rewrite repeat_length.
  - intros q Hq. apply repeat_spec in Hq. subst. split; apply Qcle_refl.
  - apply Qcle_antisym; assumption.
Qed.

Lemma sum_zeros (w : nat) : Pd.sum (repeat (Fin 0%Qc) w) = Fin 0%Qc.
Proof.
  unfold Pd.sum. change (Np.of_Z 0) with (Fin 0%Qc).
  rewrite <- map_repeat, sum_map_Fin. f_equal.
  induction w as [| w IH]; simpl; [reflexivity |].
  rewrite Qcplus_0_l. exact IH.
Qed.

Lemma std_flat (sqrt : float -> float) (w : nat) (c : Qc) :
  2 <= w -> Pd.std sqrt 1 (repeat (Fin c) w) = sqrt (Fin 0%Qc).
Proof.
  intro Hw. unfold Pd.std. rewrite mean_flat by lia. cbv zeta.
  rewrite map_repeat, repeat_length.
  assert (E : ((Fin c - Fin c) * (Fin c - Fin c))%np = Fin 0%Qc).
  { unfold Np.sub. simpl. f_equal. rewrite Qcplus_opp_r. apply Qcmult_0_l. }
  rewrite E, sum_zeros.
  change (Np.of_nat (w - 1)) with (Fin (Qc_of_nat (w - 1))).
  unfold Np.div. rewrite Qc_of_nat_nonzero by lia.
  do 2 f_equal. unfold Qcdiv. apply Qcmult_0_l.
Qed.

Lemma rolling_mean_flat (w n : nat) (c : Qc) (x : float) :
  0 < w ->
  In x (Pd.rolling w Pd.mean (repeat (Fin c) n)) -> x = NaN \/ x = Fin c.
Proof.
  intros Hw Hx. unfold Pd.rolling in Hx.
  apply in_map_iff in Hx as (i & <- & Hi). apply in_seq in Hi.
  rewrite repeat_length in Hi.
  rewrite <- map_repeat, window_map_Fin.
  destruct (Nat.leb_spec w (i + 1)) as [H | H]; [| now left].
  rewrite no_nan_map_Fin, span_flat, map_repeat, mean_flat by lia.
  now right.
Qed.

Lemma rolling_band_flat (sqrt : float -> float) (f : float -> float -> float)
    (n : nat) (c : Qc) (x : float) :
  sqrt (Fin 0%Qc) = Fin 0%Qc ->
  (forall y, f NaN y = NaN) ->
  f (Fin c) (Fin 0%Qc * Np.of_Z 2)%np = Fin c ->
  In x (Pd.zip_with f (Pd.rolling 20 Pd.mean (repeat (Fin c) n))
          (Pd.scale (Pd.rolling 20 (Pd.std sqrt 1) (repeat (Fin c) n))
             (Np.of_Z 2))) ->
  x = NaN \/ x = Fin c.
Proof.
  intros Hsqrt Hnan Hval Hx. apply In_nth_error in Hx as (i & Hi).
  apply nth_error_zip_with_inv in Hi as (m & s & Hm & Hs & ->).
  assert (Hlt : i < n).
  { rewrite <- (repeat_length (Fin c) n), <- (rolling_length 20 Pd.mean).
    apply nth_error_Some. congruence. }
  unfold Pd.scale in Hs. rewrite nth_error_map in Hs.
  rewrite rolling_nth in Hm, Hs by now rewrite repeat_length.
  rewrite <- map_repeat, window_map_Fin in Hm, Hs.
  destruct (Nat.leb_spec 20 (i + 1)) as [H | H].
  - rewrite no_nan_map_Fin, span_flat, map_repeat in Hm, Hs by lia.
    rewrite mean_flat in Hm by lia. rewrite std_flat, Hsqrt in Hs by lia.
    injection Hm as <-. injection Hs as <-. now right.
  - injection Hm as <-. left. apply Hnan.
Qed.

Lemma diff_from_flat (c : Qc) (n : nat) :
  Pd.diff_from (Fin c) (repeat (Fin c) n) = repeat (Fin 0%Qc) n.
Proof.
  induction n as [| n IH]; simpl; [reflexivity |]. rewrite IH. f_equal.
  unfold Np.sub. simpl. now rewrite Qcplus_opp_r.
Qed.

Lemma Qcopp_zero : (- 0)%Qc = 0%Qc.
Proof. apply Qc_is_canon. reflexivity. Qed.

Lemma gains_flat (c : Qc) (n : nat) :
  Pd.where_ (Pd.diff (repeat (Fin c) n)) (fun d => (d >? Np.of_Z 0)%np)
    (Np.of_Z 0)
  = repeat (Fin 0%Qc) n.
Proof.
  destruct n as [| n]; [reflexivity |].
  simpl Pd.diff. rewrite diff_from_flat. unfold Pd.where_.
  simpl map. rewrite map_repeat. reflexivity.
Qed.

Lemma losses_flat (c : Qc) (n : nat) :
  Pd.neg (Pd.where_ (Pd.diff (repeat (Fin c) n)) (fun d => (d <? Np.of_Z 0)%np)
            (Np.of_Z 0))
  = repeat (Fin 0%Qc) n.
Proof.
  destruct n as [| n]; [reflexivity |].
  simpl Pd.diff. rewrite diff_from_flat. unfold Pd.neg, Pd.where_.
  simpl map. rewrite !map_repeat.
  change (- (if (Fin 0%Qc <? Np.of_Z 0)%np then Fin 0%Qc else Np.of_Z 0))%np
    with (Fin (- 0)%Qc).
  change (- Np.of_Z 0)%np with (Fin (- 0)%Qc).
  rewrite Qcopp_zero. reflexivity.
Qed.

Lemma rsi_flat_column (c : Qc) (n : nat) (x : float) :
  In x (rsi_of_rs (Pd.div (avg_gain (Pd.diff (repeat (Fin c) n)))
                          (avg_loss (Pd.diff (repeat (Fin c) n))))) ->
  x = NaN.
Proof.
  unfold rsi_of_rs, avg_gain, avg_loss. rewrite gains_flat, losses_flat.
  intro Hx. apply in_map_iff in Hx as (rs & <- & Hrs).
  apply In_nth_error in Hrs as (i & Hi).
  apply nth_error_zip_with_inv in Hi as (g & l & Hg & Hl & ->).
  apply nth_error_In in Hg, Hl.
  apply rolling_mean_flat in Hg; [| lia]. apply rolling_mean_flat in Hl; [| lia].
  destruct Hg as [-> | ->]; destruct Hl as [-> | ->]; reflexivity.
Qed.

Lemma manual_columns (sqrt : float -> float) (self : TradingAnalyzer)
    (bars : list Bar) (df : DataFrame.t) :
  data self = Some bars ->
  calculate_technical_indicators sqrt false self = Some df ->
  DataFrame.bars df = bars /\
  DataFrame.SMA_20 df = Pd.rolling 20 Pd.mean (map Close bars) /\
  DataFrame.RSI df
  = rsi_of_rs (Pd.div (avg_gain (Pd.diff (map Close bars)))
                      (avg_loss (Pd.diff (map Close bars)))) /\
  DataFrame.MACD df
  = Pd.sub (Pd.ewm_mean (Pd.alpha_of_span 12) true 0 (map Close bars))
           (Pd.ewm_mean (Pd.alpha_of_span 26) true 0 (map Close bars)) /\
  DataFrame.MACD_signal df
  = Pd.ewm_mean (Pd.alpha_of_span 9) true 0 (DataFrame.MACD df) /\
  DataFrame.BB_upper df
  = Pd.add (Pd.rolling 20 Pd.mean (map Close bars))
           (Pd.scale (Pd.rolling 20 (Pd.std sqrt 1) (map Close bars))
                     (Np.of_Z 2)) /\
  DataFrame.BB_lower df
  = Pd.sub (Pd.rolling 20 Pd.mean (map Close bars))
           (Pd.scale (Pd.rolling 20 (Pd.std sqrt 1) (map Close bars))
                     (Np.of_Z 2)).
Proof.
  intros Hd. unfold calculate_technical_indicators. rewrite Hd.
  intro H. injection H as <-. repeat split; reflexivity.
Qed.

Lemma iloc_last_fields (df : DataFrame.t) (latest : Row.t) :
  iloc_last df = Return latest ->
  In (Row.bar latest) (DataFrame.bars df) /\
  Row.SMA_20 latest = Pd.iloc_last (DataFrame.SMA_20 df) /\
  Row.RSI latest = Pd.iloc_last (DataFrame.RSI df) /\
  Row.MACD latest = Pd.iloc_last (DataFrame.MACD df) /\
  Row.MACD_signal latest = Pd.iloc_last (DataFrame.MACD_signal df) /\
  Row.BB_upper latest = Pd.iloc_last (DataFrame.BB_upper df) /\
  Row.BB_lower latest = Pd.iloc_last (DataFrame.BB_lower df).
Proof.
  unfold iloc_last. destruct (rev (DataFrame.bars df)) as [| b rest] eqn:E;
    [discriminate |].
  intro H. injection H as <-. simpl. split; [| repeat split; reflexivity].
  apply in_rev. rewrite E. now left.
Qed.

Lemma last_flat (x : float) (n : nat) : 0 < n -> last (repeat x n) NaN = x.
Proof.
  intro H. destruct n as [| n]; [lia |]. clear H.
  induction n as [| n IH]; [reflexivity |].
  change (last (repeat x (S (S n))) NaN) with (last (repeat x (S n)) NaN).
  exact IH.
Qed.

Lemma moving_average_flat (latest : Row.t) (c : Qc) :
  Close (Row.bar latest) = Fin c ->
  Row.SMA_20 latest = NaN \/ Row.SMA_20 latest = Fin c ->
  moving_average_signal latest
  = ("Moving Average", "NEUTRAL", "Mixed moving average signals").
Proof.
  intros Hc [H | H]; [apply moving_average_nan; now left |].
  unfold moving_average_signal. rewrite Hc, H.
  unfold Np.gtb, Np.ltb.
  assert (E : Np.Qcltb c c = false) by (apply Qcltb_false, Qcle_refl).
  rewrite E. reflexivity.
Qed.

Lemma bollinger_flat (latest : Row.t) (c : Qc) :
  Close (Row.bar latest) = Fin c ->
  Row.BB_lower latest = NaN \/ Row.BB_lower latest = Fin c ->
  Row.BB_upper latest = NaN \/ Row.BB_upper latest = Fin c ->
  bollinger_signal latest = ("Bollinger Bands", "NEUTRAL", "Price within bands").
Proof.
  intros Hc Hlo Hup. unfold bollinger_signal. rewrite Hc.
  assert (E : Np.Qcltb c c = false) by (apply Qcltb_false, Qcle_refl).
  assert (L : (Fin c <? Row.BB_lower latest)%np = false).
  { destruct Hlo as [-> | ->]; [reflexivity | exact E]. }
  assert (U : (Fin c >? Row.BB_upper latest)%np = false).
  { destruct Hup as [-> | ->]; [reflexivity | exact E]. }
  rewrite L, U. reflexivity.
Qed.

Lemma flat_level (l : Pd.Series) (c : Qc) :
  (forall x, In x l -> x = NaN \/ x = Fin c) ->
  Pd.iloc_last l = NaN \/ Pd.iloc_last l = Fin c.
Proof.
  intro H. unfold Pd.iloc_last.
  destruct (last_In_or_default l) as [E | E]; [now left | now apply H].
Qed.

(** X18. On the fallback path, with a square root that sends 0 to 0, a
    non-empty history whose closes all equal one real price yields the
    signals Moving Average NEUTRAL, RSI NEUTRAL with an RSI of nan, MACD
    SELL and Bollinger Bands NEUTRAL, hence the overall verdict SELL: a
    market that does not move is reported as SELL. *)
Theorem flat_history_overall_sell (sqrt : float -> float)
    (self : TradingAnalyzer) (bars : list Bar) (c : Qc) :
  sqrt (Fin 0%Qc) = Fin 0%Qc ->
  data self = Some bars ->
  bars <> [] ->
  Forall (fun b => Close b = Fin c) bars ->
  exists df : DataFrame.t,
    generate_signals sqrt false self
    = Return (Some [("Moving Average", "NEUTRAL", "Mixed moving average signals");
                    ("RSI", "NEUTRAL", "Neutral RSI (nan)");
                    ("MACD", "SELL", "MACD below signal line");
                    ("Bollinger Bands", "NEUTRAL", "Price within bands")],
              Some "SELL", inl df).
Proof.
  intros Hsqrt Hd Hne Hflat.
  destruct (indicators_of_data sqrt false self bars Hd) as (df & Hdf & _).
  destruct (manual_columns sqrt self bars df Hd Hdf)
    as (Hb & E20 & Ersi & Emacd & Esig & Eup & Elo).
  destruct (iloc_last_nonempty df) as (latest & Hl); [now rewrite Hb |].
  destruct (iloc_last_fields df latest Hl)
    as (Hbar & L20 & Lrsi & Lmacd & Lsig & Lup & Llo).
  assert (Hn : 0 < length bars) by (destruct bars; [contradiction | simpl; lia]).
  rewrite (flat_closes bars c Hflat) in *.
  assert (Hc : Close (Row.bar latest) = Fin c).
  { rewrite Hb in Hbar. rewrite Forall_forall in Hflat. now apply Hflat. }
  assert (H20 : Row.SMA_20 latest = NaN \/ Row.SMA_20 latest = Fin c).
  { rewrite L20, E20. apply flat_level. intros x Hx.
    eapply rolling_mean_flat; [| exact Hx]. lia. }
  assert (Hrsi : Row.RSI latest = NaN).
  { rewrite Lrsi, Ersi. apply last_all_nan. apply rsi_flat_column. }
  assert (Hmacd : Row.MACD latest = Fin 0%Qc).
  { rewrite Lmacd, Emacd, !ewm_mean_flat, zip_sub_flat.
    now apply last_flat. }
  assert (Hsig : Row.MACD_signal latest = Fin 0%Qc).
  { rewrite Lsig, Esig, Emacd, !ewm_mean_flat, zip_sub_flat, ewm_mean_flat.
    now apply last_flat. }
  assert (Hup : Row.BB_upper latest = NaN \/ Row.BB_upper latest = Fin c).
  { rewrite Lup, Eup. apply flat_level. intros x Hx.
    eapply (rolling_band_flat sqrt Np.add); [exact Hsqrt | | | exact Hx].
    - reflexivity.
    - simpl. f_equal. rewrite Qcmult_0_l. apply Qcplus_0_r. }
  assert (Hlo : Row.BB_lower latest = NaN \/ Row.BB_lower latest = Fin c).
  { rewrite Llo, Elo. apply flat_level. intros x Hx.
    eapply (rolling_band_flat sqrt Np.sub); [exact Hsqrt | | | exact Hx].
    - reflexivity.
    - unfold Np.sub. simpl. f_equal.
      rewrite Qcmult_0_l, Qcopp_zero. apply Qcplus_0_r. }
  exists df. unfold generate_signals. rewrite Hdf, Hl.
  unfold latest_signals.
  rewrite (moving_average_flat latest c Hc H20), (rsi_nan latest Hrsi),
    (bollinger_flat latest c Hc Hlo Hup).
  assert (Em : macd_signal latest = ("MACD", "SELL", "MACD below signal line")).
  { unfold macd_signal. rewrite Hmacd, Hsig. reflexivity. }
  rewrite Em. reflexivity.
Qed.

Lemma flat_history_overall_sell_witness :
  exists df : DataFrame.t,
    generate_signals sqrt_12 false flat_history
    = Return (Some [("Moving Average", "NEUTRAL", "Mixed moving average signals");
                    ("RSI", "NEUTRAL", "Neutral RSI (nan)");
                    ("MACD", "SELL", "MACD below signal line");
                    ("Bollinger Bands", "NEUTRAL", "Price within bands")],
              Some "SELL", inl df).
Proof.
  apply (flat_history_overall_sell sqrt_12 flat_history
           (map (fun _ => flat_bar (Np.of_Z 100)) (seq 0 20))
           (Q2Qc (inject_Z 100))).
  - apply Fin_eq. reflexivity.
  - reflexivity.
  - vm_compute. discriminate.
  - repeat constructor.
Defined.

(** ** Plans stay close to the current price *)

Lemma last_nth_error (l : Pd.Series) (x : float) :
  nth_error l (length l - 1) = Some x -> last l NaN = x.
Proof.
  destruct l as [| a l]; [discriminate |].
  destruct (exists_last (l := a :: l)) as (l' & z & E); [discriminate |].
  rewrite E, length_app, last_last. simpl length.
  rewrite nth_error_app2 by lia.
  replace (length l' + 1 - 1 - length l') with 0 by lia.
  simpl. congruence.
Qed.

Lemma rolling_latest_Fin (agg : list float -> float) (qs : list Qc) :
  20 <= length qs ->
  Pd.iloc_last (Pd.rolling 20 agg (map Fin qs))
  = agg (map Fin (span 20 (length qs - 1) qs)).
Proof.
  intro H. unfold Pd.iloc_last. apply last_nth_error.
  rewrite rolling_length, length_map. apply rolling_agg_Fin; lia.
Qed.

Lemma latest_real (f : Bar -> float) (front : list Bar) (b : Bar)
    (qs : list Qc) (q : Qc) :
  map f (front ++ [b]) = map Fin qs ->
  f b = Fin q ->
  length qs = length front + 1 /\ nth_error qs (length front) = Some q.
Proof.
  intros Hm Hb.
  assert (Hlen : length qs = length front + 1).
  { rewrite <- (length_map Fin qs), <- Hm, length_map, length_app. reflexivity. }
  split; [exact Hlen |].
  assert (E : nth_error (map f (front ++ [b])) (length front) = Some (Fin q)).
  { rewrite map_app, nth_error_app2 by now rewrite length_map.
    rewrite length_map, Nat.sub_diag. simpl. now rewrite Hb. }
  rewrite Hm, nth_error_map in E.
  destruct (nth_error qs (length front)) as [q' |]; [| discriminate].
  simpl in E. congruence.
Qed.

(** X19. Take an analyzer whose history has at least twenty bars with real
    lows and highs, whose current price is the last close c > 0, and whose
    last bar has low <= close <= high.  Then the entry price of the BUY
    plan lies between 95% and 98% of the current price, and the sell price
    of a SELL plan (non-zero basis) between 102% and 105% of it. *)
Theorem plans_near_current_price (sqrt : float -> float) (ta : bool)
    (self : TradingAnalyzer) (front : list Bar) (b : Bar)
    (lows highs : list Qc) (lo c hi : Qc) :
  data self = Some (front ++ [b]) ->
  current_price self = Some (Close b) ->
  19 <= length front ->
  map Low (front ++ [b]) = map Fin lows ->
  map High (front ++ [b]) = map Fin highs ->
  Low b = Fin lo -> Close b = Fin c -> High b = Fin hi ->
  (lo <= c)%Qc -> (c <= hi)%Qc -> (0 < c)%Qc ->
  (exists (plan : Plan) (e : Qc),
      calculate_price_targets sqrt ta self "BUY" None = Return (Some plan) /\
      get "entry_price" plan = Some (Fin e) /\
      (c * k95 <= e /\ e <= c * k98)%Qc) /\
  (forall basis : Qc,
      basis <> 0%Qc ->
      exists (plan : Plan) (t : Qc),
        calculate_price_targets sqrt ta self "SELL" (Some (Fin basis))
        = Return (Some plan) /\
        get "sell_price" plan = Some (Fin t) /\
        (c * k102 <= t /\ t <= c * k105)%Qc).
Proof.
  intros Hd Hp Hlen Hlows Hhighs Hlo Hc Hhi Hloc Hchi Hpos.
  destruct (indicators_of_data sqrt ta self (front ++ [b]) Hd)
    as (df & Hdf & Hb).
  destruct (iloc_last_nonempty df) as (latest & Hl).
  { rewrite Hb. now destruct front. }
  destruct (iloc_last_levels df latest Hl) as [HS HR].
  destruct (levels_of_data sqrt ta self df Hdf) as [ES ER].
  rewrite Hb, Hlows in ES. rewrite Hb, Hhighs in ER.
  destruct (latest_real Low front b lows lo Hlows Hlo) as [Ll Nl].
  destruct (latest_real High front b highs hi Hhighs Hhi) as [Lh Nh].
  assert (Il : length lows - 1 = length front) by lia.
  assert (Ih : length highs - 1 = length front) by lia.
  destruct (minimum_map_Fin (span 20 (length front) lows))
    as (s & Hs & _ & Hsmin); [rewrite span_length; lia |].
  destruct (maximum_map_Fin (span 20 (length front) highs))
    as (r & Hr & _ & Hrmax); [rewrite span_length; lia |].
  assert (Hsup : Row.Support latest = Fin s).
  { rewrite HS, ES, rolling_latest_Fin, Il by lia. exact Hs. }
  assert (Hres : Row.Resistance latest = Fin r).
  { rewrite HR, ER, rolling_latest_Fin, Ih by lia. exact Hr. }
  assert (Hslo : (s <= lo)%Qc).
  { apply Hsmin. rewrite <- (span_latest 20 (length front) lows) in Nl by lia.
    now apply nth_error_In in Nl. }
  assert (Hhir : (hi <= r)%Qc).
  { apply Hrmax. rewrite <- (span_latest 20 (length front) highs) in Nh by lia.
    now apply nth_error_In in Nh. }
  rewrite Hc in Hp. split.
  - rewrite (buy_targets_eq sqrt ta self df latest (Fin c) None Hdf Hl Hp).
    cbv zeta. rewrite Hsup.
    change (Fin s * Np.lit 98 100)%np with (Fin (s * k98)).
    change (Fin c * Np.lit 95 100)%np with (Fin (c * k95)).
    destruct (py_max_Fin (s * k98) (c * k95)) as (e & He & Hge1 & Hge2 & Hor).
    rewrite He. eexists. exists e. split; [reflexivity |].
    split; [reflexivity |]. split; [exact Hge2 |].
    destruct Hor as [-> | ->]; unfold k95, k98, Qcle, Qclt in *;
      rewrite ?this_mul, ?this_Q2Qc in *; change (this 0%Qc) with 0%Q in *; lra.
  - intros basis Hbasis.
    rewrite (sell_targets_eq sqrt ta self df latest (Fin c) basis
               Hdf Hl Hp Hbasis).
    cbv zeta. rewrite Hres.
    change (Fin r * Np.lit 102 100)%np with (Fin (r * k102)).
    change (Fin c * Np.lit 105 100)%np with (Fin (c * k105)).
    destruct (py_min_Fin (r * k102) (c * k105)) as (t & Ht & Hle1 & Hle2 & Hor).
    rewrite Ht. eexists. exists t. split; [reflexivity |].
    split; [reflexivity |]. split; [| exact Hle2].
    destruct Hor as [-> | ->]; unfold k102, k105, Qcle, Qclt in *;
      rewrite ?this_mul, ?this_Q2Qc in *; change (this 0%Qc) with 0%Q in *; lra.
Qed.

Lemma plans_near_current_price_witness :
  exists (plan : Plan) (e : Qc),
    calculate_price_targets sqrt_12 false buy_scenario "BUY" None
    = Return (Some plan) /\
    get "entry_price" plan = Some (Fin e) /\
    (Q2Qc (inject_Z 105) * k95 <= e /\ e <= Q2Qc (inject_Z 105) * k98)%Qc.
Proof.
  destruct (plans_near_current_price sqrt_12 false buy_scenario
              (map (fun _ => flat_bar (Np.of_Z 100)) (seq 0 19))
              {| Open := Np.of_Z 100; High := Np.of_Z 105; Low := Np.of_Z 100;
                 Close := Np.of_Z 105; Volume := Np.of_Z 1000 |}
              (reals (map Low (scenario (Np.of_Z 100) (Np.of_Z 105)
                                        (Np.of_Z 105))))
              (reals (map High (scenario (Np.of_Z 100) (Np.of_Z 105)
                                         (Np.of_Z 105))))
              (Q2Qc (inject_Z 100)) (Q2Qc (inject_Z 105)) (Q2Qc (inject_Z 105)))
    as [Hbuy _].
  - reflexivity.
  - reflexivity.
  - vm_compute. lia.
  - vm_compute. reflexivity.
  - vm_compute. reflexivity.
  - reflexivity.
  - reflexivity.
  - reflexivity.
  - vm_compute. discriminate.
  - vm_compute. discriminate.
  - reflexivity.
  - exact Hbuy.
Defined.

(** ** The buy page and the missing-data report *)

(** X20. The box of the buy page follows the vote: "RECOMMENDATION: BUY"
    exactly when BUY verdicts outnumber SELL verdicts, "DO NOT BUY" exactly
    when SELL verdicts outnumber BUY verdicts, "NEUTRAL - WAIT" exactly when
    there are as many of each. *)
Theorem buy_recommendation_follows_votes (symbol : string)
    (signals : list Signal) :
  (buy_recommendation symbol (overall_signal signals)
   = ("buy-signal", ("RECOMMENDATION: BUY " ++ symbol)%string)
   <-> sell_signals signals < buy_signals signals) /\
  (buy_recommendation symbol (overall_signal signals)
   = ("sell-signal", ("RECOMMENDATION: DO NOT BUY " ++ symbol)%string)
   <-> buy_signals signals < sell_signals signals) /\
  (buy_recommendation symbol (overall_signal signals)
   = ("neutral-signal", ("RECOMMENDATION: NEUTRAL - WAIT " ++ symbol)%string)
   <-> buy_signals signals = sell_signals signals).
Proof.
  unfold overall_signal.
  destruct (Nat.ltb_spec (sell_signals signals) (buy_signals signals));
    [| destruct (Nat.ltb_spec (buy_signals signals) (sell_signals signals))];
    unfold buy_recommendation; simpl;
    repeat split; intros; try discriminate; try reflexivity; lia.
Qed.

(** X21. [generate_signals] answers (None, None, "No data available")
    exactly when the analyzer holds no frame, that is when no download
    succeeded in returning one; with a frame it returns signals or raises
    IndexError, and it raises exactly when the frame has no rows. *)
Theorem no_data_report (sqrt : float -> float) (ta : bool)
    (self : TradingAnalyzer) :
  (generate_signals sqrt ta self = Return (None, None, inr "No data available")
   <-> data self = None) /\
  (generate_signals sqrt ta self = Raise IndexError <-> data self = Some []) /\
  (generate_signals sqrt ta (__init__ (symbol self))
   = Return (None, None, inr "No data available")).
Proof.
  split; [| split; [| reflexivity]].
  - split.
    + destruct (data self) as [bars |] eqn:Hd; [| reflexivity]. intro H.
      destruct (indicators_of_data sqrt ta self bars Hd) as (df & Hdf & Hb).
      unfold generate_signals in H. rewrite Hdf in H.
      destruct (iloc_last df); discriminate.
    + intro Hd. unfold generate_signals, calculate_technical_indicators.
      rewrite Hd. reflexivity.
  - split.
    + destruct (data self) as [bars |] eqn:Hd.
      * destruct bars as [| b bars]; [reflexivity |]. intro H.
        destruct (indicators_of_data sqrt ta self (b :: bars) Hd)
          as (df & Hdf & Hb).
        destruct (iloc_last_nonempty df) as (latest & Hl);
          [rewrite Hb; discriminate |].
        unfold generate_signals in H. rewrite Hdf, Hl in H. discriminate.
      * unfold generate_signals, calculate_technical_indicators.
        rewrite Hd. discriminate.
    + intro Hd. unfold generate_signals, calculate_technical_indicators.
      rewrite Hd. destruct ta; reflexivity.
Qed.
